(** * Trado: the in-memory trading engine and the risk score

    A shallow embedding of [src/lib/trading-engine.ts] (class [TradingEngine])
    and of the scoring part of [src/lib/risk-management.ts] (class
    [RiskManager]), with the records of [src/types/trading.ts].

    Conventions of the embedding.

    - A JS [number] is an exact rational ([Q]).  Rounding, [NaN] and signed
      zeros are outside the model; the one infinite value the source writes
      down ([Infinity], the balance [closePosition] passes) is kept by the
      type [xnumber].  Numeric results are compared with [==] ([Qeq]).
    - An optional field ([price?: number], every field of [Partial<Order>])
      is an [option]; [undefined] is [None].
    - A JS [Map] is an association list in insertion order ([JsMap]).
    - The class instance is an explicit state [TradingEngine.t] threaded through the
      methods; the [async] methods never wait on anything external, so a call
      is one state transition.
    - [Date.now()] and [Math.random()] are read from a record of draws
      ([Draws.t]) supplied with each call; number formatting is a host
      interface ([Host]). *)

From Stdlib Require Import QArith Qabs Qminmax Lqa Lia Bool List String DecimalString.
Import ListNotations.
Open Scope string_scope.
Open Scope Q_scope.

Definition number : Type := Q.

(** ** JavaScript primitives used by the source *)

Module Js.

(** [!!x] for an optional number: [undefined] and [0] are falsy. *)
Definition truthy (o : option number) : bool :=
  match o with
  | Some q => negb (Qeq_bool q 0)
  | None => false
  end.

(** [!!s] for an optional string: [undefined] and [''] are falsy. *)
Definition truthy_string (o : option string) : bool :=
  match o with
  | Some EmptyString => false
  | Some _ => true
  | None => false
  end.

(** [!!x] for an optional value of a string-literal union type. *)
Definition present {A : Type} (o : option A) : bool :=
  match o with
  | Some _ => true
  | None => false
  end.

(** [x || d] on numbers. *)
Definition or_else (o : option number) (d : number) : number :=
  match o with
  | Some q => if Qeq_bool q 0 then d else q
  | None => d
  end.

Definition leb (a b : number) : bool := Qle_bool a b.
Definition ltb (a b : number) : bool := negb (Qle_bool b a).
Definition geb (a b : number) : bool := leb b a.
Definition gtb (a b : number) : bool := ltb b a.
Definition eqb (a b : number) : bool := Qeq_bool a b.

Definition Math_abs (a : number) : number := Qabs a.
Definition Math_min (a b : number) : number := if leb a b then a else b.
Definition Math_sign (a : number) : number := inject_Z (Z.sgn (Qnum a)).

(** [array.join(sep)] on strings. *)
Fixpoint join (sep : string) (l : list string) : string :=
  match l with
  | [] => EmptyString
  | [s] => s
  | s :: rest => s ++ sep ++ join sep rest
  end.

(** [array.find(pred)]. *)
Definition find {A : Type} (pred : A -> bool) (l : list A) : option A :=
  List.find pred l.

End Js.

(** A number or [Infinity]: the type of the [userBalance] argument. *)
Inductive xnumber : Type :=
| Fin (q : number)
| Infinity.

Module X.

(** [a > b] for a finite [a]. *)
Definition gtb (a : number) (b : xnumber) : bool :=
  match b with
  | Fin q => Js.gtb a q
  | Infinity => false
  end.

(** [b * c] for a positive literal [c] (the source multiplies by [0.5]). *)
Definition scale (b : xnumber) (c : number) : xnumber :=
  match b with
  | Fin q => Fin (q * c)
  | Infinity => Infinity
  end.

End X.

(** Number formatting of the host: [String(x)] as used by template literals,
    and [x.toFixed(d)]. *)
Class Host : Type := {
  toString : number -> string;
  toFixed : nat -> number -> string
}.

Definition toStringOpt `{Host} (o : option number) : string :=
  match o with
  | Some q => toString q
  | None => "undefined"
  end.

Definition toFixedX `{Host} (d : nat) (b : xnumber) : string :=
  match b with
  | Fin q => toFixed d q
  | Infinity => "Infinity"
  end.

(** [x.toLocaleString()], which depends on the locale of the host. *)
Class Locale : Type := {
  toLocaleString : number -> string
}.

(** ** [Map<string, V>] in insertion order *)

Module JsMap.

Definition t (V : Type) : Type := list (string * V).

Definition empty {V : Type} : t V := [].

Fixpoint get {V : Type} (k : string) (m : t V) : option V :=
  match m with
  | [] => None
  | (k', v) :: rest => if String.eqb k k' then Some v else get k rest
  end.

(** [set] keeps the slot of an existing key and appends a new one. *)
Fixpoint set {V : Type} (k : string) (v : V) (m : t V) : t V :=
  match m with
  | [] => [(k, v)]
  | (k', v') :: rest =>
      if String.eqb k k' then (k', v) :: rest else (k', v') :: set k v rest
  end.

Definition values {V : Type} (m : t V) : list V := List.map snd m.

End JsMap.

(** ** Records of [src/types/trading.ts] *)

Inductive Side : Type := buy | sell.
Inductive OrderType : Type := market | limit.
Inductive OrderStatus : Type := pending | filled | cancelled | partial | rejected.
Inductive TimeInForce : Type := GTC | IOC | FOK.

(** [Position.side] is ['long' | 'short' | 'buy' | 'sell']. *)
Inductive PositionSide : Type :=
| long
| short
| side_of (s : Side).

Definition Side_eqb (a b : Side) : bool :=
  match a, b with
  | buy, buy | sell, sell => true
  | _, _ => false
  end.

Definition PositionSide_is_buy (s : PositionSide) : bool :=
  match s with
  | side_of buy => true
  | _ => false
  end.

Module Order.
Record t : Type := mk {
  id : string;
  symbol : string;
  side : Side;
  type : OrderType;
  quantity : number;
  price : option number;
  status : OrderStatus;
  timestamp : number;
  leverage : option number;
  stopLoss : option number;
  takeProfit : option number;
  timeInForce : option TimeInForce;
  filledQuantity : option number;
  averagePrice : option number;
  filledAt : option number;
  cancelledAt : option number;
  rejectedReason : option string
}.

(** The assignments the engine makes to a stored order: every other field is
    kept. *)
Definition assign (o : t) (status' : OrderStatus)
    (filledQuantity' averagePrice' filledAt' cancelledAt' : option number)
    (rejectedReason' : option string) : t :=
  {| id := id o; symbol := symbol o; side := side o; type := type o;
     quantity := quantity o; price := price o; status := status';
     timestamp := timestamp o; leverage := leverage o; stopLoss := stopLoss o;
     takeProfit := takeProfit o; timeInForce := timeInForce o;
     filledQuantity := filledQuantity'; averagePrice := averagePrice';
     filledAt := filledAt'; cancelledAt := cancelledAt';
     rejectedReason := rejectedReason' |}.
End Order.

(** [Partial<Order>]: the fields [executeOrder] and [validateOrder] read. *)
Module PartialOrder.
Record t : Type := mk {
  symbol : option string;
  side : option Side;
  type : option OrderType;
  quantity : option number;
  price : option number;
  leverage : option number;
  stopLoss : option number;
  takeProfit : option number;
  timeInForce : option TimeInForce
}.
End PartialOrder.

Module Position.
Record t : Type := mk {
  id : string;
  symbol : string;
  side : PositionSide;
  size : number;
  entryPrice : number;
  markPrice : number;
  pnl : number;
  pnlPercent : number;
  unrealizedPnl : number;
  realizedPnl : number;
  margin : number;
  leverage : number;
  liquidationPrice : option number;
  timestamp : number;
  stopLoss : option number;
  takeProfit : option number
}.

(** The assignments [updatePosition] makes to an existing position: every
    other field is kept. *)
Definition assign (p : t) (size' entryPrice' realizedPnl' margin' : number) : t :=
  {| id := id p; symbol := symbol p; side := side p; size := size';
     entryPrice := entryPrice'; markPrice := markPrice p; pnl := pnl p;
     pnlPercent := pnlPercent p; unrealizedPnl := unrealizedPnl p;
     realizedPnl := realizedPnl'; margin := margin'; leverage := leverage p;
     liquidationPrice := liquidationPrice p; timestamp := timestamp p;
     stopLoss := stopLoss p; takeProfit := takeProfit p |}.
End Position.

Module Trade.
Record t : Type := mk {
  id : string;
  orderId : option string;
  symbol : string;
  side : Side;
  quantity : number;
  price : number;
  timestamp : number;
  fee : number;
  leverage : option number
}.
End Trade.

(** ** Result records of [src/lib/trading-engine.ts] *)

Module OrderValidationResult.
Record t : Type := mk {
  isValid : bool;
  errors : list string;
  warnings : list string
}.
End OrderValidationResult.

Module OrderExecutionResult.
Record t : Type := mk {
  success : bool;
  orderId : option string;
  executedPrice : option number;
  executedQuantity : option number;
  error : option string;
  trade : option Trade.t
}.
End OrderExecutionResult.

Module RiskCheckResult.
Record t : Type := mk {
  allowed : bool;
  reason : option string;
  suggestedMaxSize : option number
}.
End RiskCheckResult.


(** ** The readings one call takes from the clock and the random source *)

Module Draws.
Record t : Type := mk {
  (** [Date.now()] in [generateOrderId] *)
  now_orderId : number;
  (** [Date.now()] for [order.timestamp] *)
  now_order : number;
  (** [Math.random()] in [executeMarketOrder], in [[0, 1)] *)
  random_slippage : number;
  (** [Date.now()] in [generateTradeId] *)
  now_tradeId : number;
  (** [Math.random().toString(36).substring(2, 11)] in [generateTradeId] *)
  random_tradeId : string;
  (** [Date.now()] for [trade.timestamp] *)
  now_trade : number;
  (** [Date.now()] in the id of a new position *)
  now_position : number;
  (** [Date.now()] for [order.filledAt] *)
  now_filledAt : number
}.
End Draws.

(** ** [class TradingEngine] *)

Module TradingEngine.

(** The private fields of the instance. *)
Record t : Type := mk {
  orders : JsMap.t Order.t;
  positions : JsMap.t Position.t;
  trades : list Trade.t;
  orderCounter : number
}.

(** [new TradingEngine()] *)
Definition init : t :=
  {| orders := JsMap.empty; positions := JsMap.empty; trades := []; orderCounter := 0 |}.

(** [array.push(s)] *)
Definition push {A : Type} (l : list A) (x : A) : list A := (l ++ [x])%list.

Definition is_type (o : option OrderType) (ty : OrderType) : bool :=
  match o, ty with
  | Some market, market | Some limit, limit => true
  | _, _ => false
  end.

(** A comparison against an optional number; [undefined] compares false. *)
Definition test (f : number -> bool) (o : option number) : bool :=
  match o with
  | Some v => f v
  | None => false
  end.

Section WithHost.
Context {host : Host}.

(** [generateOrderId]: the id, and the engine with the counter advanced. *)
Definition generateOrderId (d : Draws.t) (e : t) : string * t :=
  let counter := orderCounter e + 1 in
  ("order-" ++ toString (Draws.now_orderId d) ++ "-" ++ toString counter,
   {| orders := orders e; positions := positions e; trades := trades e;
      orderCounter := counter |}).

Definition generateTradeId (d : Draws.t) : string :=
  "trade-" ++ toString (Draws.now_tradeId d) ++ "-" ++ Draws.random_tradeId d.

Definition validateOrder (order : PartialOrder.t) (userBalance : xnumber)
    (currentPrice : number) : OrderValidationResult.t :=
  let quantity := PartialOrder.quantity order in
  let price := PartialOrder.price order in
  let errors : list string := [] in
  let warnings : list string := [] in
  (* Required fields validation *)
  let errors :=
    if negb (Js.truthy_string (PartialOrder.symbol order))
    then push errors "Symbol is required" else errors in
  let errors :=
    if negb (Js.present (PartialOrder.side order))
    then push errors "Order side is required" else errors in
  let errors :=
    if negb (Js.truthy quantity) || test (fun q => Js.leb q 0) quantity
    then push errors "Quantity must be greater than 0" else errors in
  let errors :=
    if negb (Js.present (PartialOrder.type order))
    then push errors "Order type is required" else errors in
  (* Price validation for limit orders *)
  let errors :=
    if is_type (PartialOrder.type order) limit
       && (negb (Js.truthy price) || test (fun p => Js.leb p 0) price)
    then push errors "Price is required for limit orders" else errors in
  (* Balance validation *)
  let errors :=
    match PartialOrder.side order, quantity, price with
    | Some buy, Some q, Some p =>
        if Js.truthy quantity && Js.truthy price then
          let requiredBalance := q * p in
          if X.gtb requiredBalance userBalance
          then push errors
                 ("Insufficient balance. Required: $" ++ toFixed 2 requiredBalance
                  ++ ", Available: $" ++ toFixedX 2 userBalance)
          else errors
        else errors
    | _, _, _ => errors
    end in
  (* Minimum order size validation *)
  let minOrderSize : number := 10 in
  let errors :=
    match quantity, price with
    | Some q, Some p =>
        if Js.truthy quantity && Js.truthy price && Js.ltb (q * p) minOrderSize
        then push errors ("Order size must be at least $" ++ toString minOrderSize)
        else errors
    | _, _ => errors
    end in
  (* Maximum order size validation (risk management) *)
  let maxOrderSize := X.scale userBalance (1 # 2) in
  let warnings :=
    match quantity, price with
    | Some q, Some p =>
        if Js.truthy quantity && Js.truthy price && X.gtb (q * p) maxOrderSize
        then push warnings "Large order size. Consider splitting into smaller orders."
        else warnings
    | _, _ => warnings
    end in
  (* Price deviation warning for market orders *)
  let warnings :=
    if is_type (PartialOrder.type order) market && Js.truthy (Some currentPrice)
    then push warnings
           "Market orders execute at current market price and may have slippage"
    else warnings in
  (* Price deviation warning for limit orders *)
  let warnings :=
    match price with
    | Some p =>
        if is_type (PartialOrder.type order) limit && Js.truthy price
           && Js.truthy (Some currentPrice)
        then
          let deviation := Js.Math_abs (p - currentPrice) / currentPrice in
          if Js.gtb deviation (5 # 100)
          then push warnings
                 ("Limit price deviates significantly from current market price ("
                  ++ toFixed 1 (deviation * 100) ++ "%)")
          else warnings
        else warnings
    | None => warnings
    end in
  {| OrderValidationResult.isValid := match errors with [] => true | _ => false end;
     OrderValidationResult.errors := errors;
     OrderValidationResult.warnings := warnings |}.

Definition calculateFee (quantity price : number) : number :=
  let feeRate : number := 1 # 1000 in
  quantity * price * feeRate.

Definition with_orders (e : t) (orders' : JsMap.t Order.t) : t :=
  {| orders := orders'; positions := positions e; trades := trades e;
     orderCounter := orderCounter e |}.

Definition with_positions (e : t) (positions' : JsMap.t Position.t) : t :=
  {| orders := orders e; positions := positions'; trades := trades e;
     orderCounter := orderCounter e |}.

Definition with_trades (e : t) (trades' : list Trade.t) : t :=
  {| orders := orders e; positions := positions e; trades := trades';
     orderCounter := orderCounter e |}.

(** [trade.side === 'buy' ? trade.quantity : -trade.quantity] *)
Definition signedQuantity (trade : Trade.t) : number :=
  match Trade.side trade with
  | buy => Trade.quantity trade
  | sell => - Trade.quantity trade
  end.

Definition positionKey (trade : Trade.t) : string :=
  Trade.symbol trade ++ "-" ++ toStringOpt (Trade.leverage trade).

Definition updatePosition (d : Draws.t) (trade : Trade.t) (e : t) : t :=
  let position :=
    match JsMap.get (positionKey trade) (positions e) with
    | None =>
        (* Create new position *)
        {| Position.id := "pos-" ++ toString (Draws.now_position d);
           Position.symbol := Trade.symbol trade;
           Position.side := side_of (Trade.side trade);
           Position.size := signedQuantity trade;
           Position.entryPrice := Trade.price trade;
           Position.markPrice := Trade.price trade;
           Position.pnl := 0;
           Position.pnlPercent := 0;
           Position.unrealizedPnl := 0;
           Position.realizedPnl := 0;
           Position.margin :=
             (Trade.quantity trade * Trade.price trade)
             / Js.or_else (Trade.leverage trade) 1;
           Position.leverage := Js.or_else (Trade.leverage trade) 1;
           Position.liquidationPrice := None;
           Position.timestamp := Trade.timestamp trade;
           Position.stopLoss := None;
           Position.takeProfit := None |}
    | Some position =>
        (* Update existing position *)
        let currentSize := Position.size position in
        let tradeSize := signedQuantity trade in
        let newSize := currentSize + tradeSize in
        if Js.eqb (Js.Math_sign currentSize) (Js.Math_sign tradeSize)
           || Js.eqb currentSize 0
        then
          (* Same direction or opening new position *)
          let totalValue :=
            Js.Math_abs currentSize * Position.entryPrice position
            + Trade.quantity trade * Trade.price trade in
          let totalQuantity := Js.Math_abs currentSize + Trade.quantity trade in
          Position.assign position
            newSize
            (totalValue / totalQuantity)
            (Position.realizedPnl position)
            (Position.margin position
             + (Trade.quantity trade * Trade.price trade)
               / Js.or_else (Trade.leverage trade) 1)
        else
          (* Opposite direction - closing or reducing position *)
          let closingQuantity :=
            Js.Math_min (Js.Math_abs currentSize) (Trade.quantity trade) in
          let pnlPerUnit :=
            match Trade.side trade with
            | buy => Position.entryPrice position - Trade.price trade
            | sell => Trade.price trade - Position.entryPrice position
            end in
          Position.assign position
            newSize
            (Position.entryPrice position)
            (Position.realizedPnl position
             + pnlPerUnit * closingQuantity * Position.leverage position)
            (if Js.ltb (Js.Math_abs newSize) (Js.Math_abs currentSize)
             then (* Reducing position *)
               (Js.Math_abs newSize * Position.entryPrice position)
               / Position.leverage position
             else Position.margin position)
    end in
  with_positions e (JsMap.set (positionKey trade) position (positions e)).

Definition executeMarketOrder (d : Draws.t) (order : Order.t) (currentPrice : number)
    (e : t) : t * OrderExecutionResult.t :=
  (* Simulate market order execution with slippage *)
  let slippage := Draws.random_slippage d * (1 # 1000) in
  let slippageDirection : number :=
    match Order.side order with buy => 1 | sell => - (1) end in
  let executedPrice := currentPrice * (1 + slippage * slippageDirection) in
  let trade :=
    {| Trade.id := generateTradeId d;
       Trade.orderId := Some (Order.id order);
       Trade.symbol := Order.symbol order;
       Trade.side := Order.side order;
       Trade.quantity := Order.quantity order;
       Trade.price := executedPrice;
       Trade.timestamp := Draws.now_trade d;
       Trade.fee := calculateFee (Order.quantity order) executedPrice;
       Trade.leverage := Order.leverage order |} in
  let e := with_trades e (push (trades e) trade) in
  let e := updatePosition d trade e in
  (e, {| OrderExecutionResult.success := true;
         OrderExecutionResult.orderId := None;
         OrderExecutionResult.executedPrice := Some executedPrice;
         OrderExecutionResult.executedQuantity := Some (Order.quantity order);
         OrderExecutionResult.error := None;
         OrderExecutionResult.trade := Some trade |}).

(** The result of [executeLimitOrder] for an order that is not marketable. *)
Definition queued : OrderExecutionResult.t :=
  {| OrderExecutionResult.success := true;
     OrderExecutionResult.orderId := None;
     OrderExecutionResult.executedPrice := None;
     OrderExecutionResult.executedQuantity := Some 0;
     OrderExecutionResult.error := None;
     OrderExecutionResult.trade := None |}.

Definition executeLimitOrder (d : Draws.t) (order : Order.t) (currentPrice : number)
    (e : t) : t * OrderExecutionResult.t :=
  match Order.price order with
  | None =>
      (* [undefined >= x] and [undefined <= x] are both false *)
      (e, queued)
  | Some price =>
      let shouldExecute :=
        (Side_eqb (Order.side order) buy && Js.geb price currentPrice)
        || (Side_eqb (Order.side order) sell && Js.leb price currentPrice) in
      if negb shouldExecute then
        (* Order would be queued in the order book *)
        (e, queued)
      else
        (* Execute at limit price *)
        let trade :=
          {| Trade.id := generateTradeId d;
             Trade.orderId := Some (Order.id order);
             Trade.symbol := Order.symbol order;
             Trade.side := Order.side order;
             Trade.quantity := Order.quantity order;
             Trade.price := price;
             Trade.timestamp := Draws.now_trade d;
             Trade.fee := calculateFee (Order.quantity order) price;
             Trade.leverage := Order.leverage order |} in
        let e := with_trades e (push (trades e) trade) in
        let e := updatePosition d trade e in
        (e, {| OrderExecutionResult.success := true;
               OrderExecutionResult.orderId := None;
               OrderExecutionResult.executedPrice := Order.price order;
               OrderExecutionResult.executedQuantity := Some (Order.quantity order);
               OrderExecutionResult.error := None;
               OrderExecutionResult.trade := Some trade |})
  end.

(** The result of a failed call: [{ success: false, error }]. *)
Definition failure (error : string) : OrderExecutionResult.t :=
  {| OrderExecutionResult.success := false;
     OrderExecutionResult.orderId := None;
     OrderExecutionResult.executedPrice := None;
     OrderExecutionResult.executedQuantity := None;
     OrderExecutionResult.error := Some error;
     OrderExecutionResult.trade := None |}.

Definition executeOrder (d : Draws.t) (orderData : PartialOrder.t)
    (userBalance : xnumber) (currentPrice : number) (e : t)
    : t * OrderExecutionResult.t :=
  (* Validate order *)
  let validation := validateOrder orderData userBalance currentPrice in
  if negb (OrderValidationResult.isValid validation) then
    (e, failure (Js.join ", " (OrderValidationResult.errors validation)))
  else
    match PartialOrder.symbol orderData, PartialOrder.side orderData,
          PartialOrder.type orderData, PartialOrder.quantity orderData with
    | Some symbol, Some side, Some type, Some quantity =>
        (* Create order *)
        let '(id, e) := generateOrderId d e in
        let order :=
          {| Order.id := id;
             Order.symbol := symbol;
             Order.side := side;
             Order.type := type;
             Order.quantity := quantity;
             Order.price := Some (Js.or_else (PartialOrder.price orderData) currentPrice);
             Order.status := pending;
             Order.timestamp := Draws.now_order d;
             Order.leverage := Some (Js.or_else (PartialOrder.leverage orderData) 1);
             Order.stopLoss := PartialOrder.stopLoss orderData;
             Order.takeProfit := PartialOrder.takeProfit orderData;
             Order.timeInForce :=
               Some (match PartialOrder.timeInForce orderData with
                     | Some tif => tif
                     | None => GTC
                     end);
             Order.filledQuantity := None;
             Order.averagePrice := None;
             Order.filledAt := None;
             Order.cancelledAt := None;
             Order.rejectedReason := None |} in
        (* Store order *)
        let e := with_orders e (JsMap.set id order (orders e)) in
        (* Execute based on order type *)
        let '(e, executionResult) :=
          match type with
          | market => executeMarketOrder d order currentPrice e
          | limit => executeLimitOrder d order currentPrice e
          end in
        (* Update order status *)
        let order :=
          if OrderExecutionResult.success executionResult then
            Order.assign order filled
              (OrderExecutionResult.executedQuantity executionResult)
              (OrderExecutionResult.executedPrice executionResult)
              (Some (Draws.now_filledAt d))
              (Order.cancelledAt order)
              (Order.rejectedReason order)
          else
            Order.assign order rejected
              (Order.filledQuantity order)
              (Order.averagePrice order)
              (Order.filledAt order)
              (Order.cancelledAt order)
              (OrderExecutionResult.error executionResult) in
        let e := with_orders e (JsMap.set id order (orders e)) in
        (e, {| OrderExecutionResult.success := OrderExecutionResult.success executionResult;
               OrderExecutionResult.orderId := Some id;
               OrderExecutionResult.executedPrice :=
                 OrderExecutionResult.executedPrice executionResult;
               OrderExecutionResult.executedQuantity :=
                 OrderExecutionResult.executedQuantity executionResult;
               OrderExecutionResult.error := OrderExecutionResult.error executionResult;
               OrderExecutionResult.trade := OrderExecutionResult.trade executionResult |})
    | _, _, _, _ =>
        (* not reached: a valid order has these four fields
           ([validateOrder_fields] below) *)
        (e, failure "Unknown execution error")
    end.

Definition getOrders (e : t) : list Order.t := JsMap.values (orders e).
Definition getPositions (e : t) : list Position.t := JsMap.values (positions e).
Definition getTrades (e : t) : list Trade.t := trades e.
Definition getOrder (orderId : string) (e : t) : option Order.t :=
  JsMap.get orderId (orders e).

(** [cancelOrder]; [now] is its reading of [Date.now()]. *)
Definition cancelOrder (now : number) (orderId : string) (e : t) : t * bool :=
  match JsMap.get orderId (orders e) with
  | None => (e, false)
  | Some order =>
      match Order.status order with
      | pending =>
          let order :=
            Order.assign order cancelled
              (Order.filledQuantity order) (Order.averagePrice order)
              (Order.filledAt order) (Some now) (Order.rejectedReason order) in
          (with_orders e (JsMap.set orderId order (orders e)), true)
      | _ => (e, false)
      end
  end.

Definition closePosition (d : Draws.t) (positionId : string) (currentPrice : number)
    (e : t) : t * OrderExecutionResult.t :=
  match Js.find (fun p => String.eqb (Position.id p) positionId)
                (JsMap.values (positions e)) with
  | None => (e, failure "Position not found")
  | Some position =>
      (* Create closing order *)
      let closingOrder :=
        {| PartialOrder.symbol := Some (Position.symbol position);
           PartialOrder.side :=
             Some (if PositionSide_is_buy (Position.side position) then sell else buy);
           PartialOrder.type := Some market;
           PartialOrder.quantity := Some (Js.Math_abs (Position.size position));
           PartialOrder.price := None;
           PartialOrder.leverage := Some (Position.leverage position);
           PartialOrder.stopLoss := None;
           PartialOrder.takeProfit := None;
           PartialOrder.timeInForce := None |} in
      (* Assume sufficient balance for closing *)
      executeOrder d closingOrder Infinity currentPrice e
  end.

End WithHost.

(** [currentPositions.reduce((sum, pos) => sum + Math.abs(pos.size * pos.markPrice), 0)] *)
Definition totalExposure (currentPositions : list Position.t) : number :=
  fold_left
    (fun sum pos => sum + Js.Math_abs (Position.size pos * Position.markPrice pos))
    currentPositions 0.

Definition checkRisk (order : PartialOrder.t) (userBalance : number)
    (currentPositions : list Position.t) : RiskCheckResult.t :=
  match PartialOrder.quantity order, PartialOrder.price order with
  | Some quantity, Some price =>
      if negb (Js.truthy (Some quantity)) || negb (Js.truthy (Some price)) then
        {| RiskCheckResult.allowed := false;
           RiskCheckResult.reason := Some "Invalid order parameters";
           RiskCheckResult.suggestedMaxSize := None |}
      else
        let orderValue := quantity * price in
        let leverage := Js.or_else (PartialOrder.leverage order) 1 in
        let margin := orderValue / leverage in
        (* Check if user has enough margin *)
        if Js.gtb margin (userBalance * (8 # 10)) then
          {| RiskCheckResult.allowed := false;
             RiskCheckResult.reason := Some "Insufficient margin";
             RiskCheckResult.suggestedMaxSize :=
               Some ((userBalance * (8 # 10) * leverage) / price) |}
        else
          (* Check total exposure *)
          let newExposure := totalExposure currentPositions + orderValue in
          if Js.gtb newExposure (userBalance * 10) then
            {| RiskCheckResult.allowed := false;
               RiskCheckResult.reason := Some "Maximum exposure limit reached";
               RiskCheckResult.suggestedMaxSize := None |}
          else
            {| RiskCheckResult.allowed := true;
               RiskCheckResult.reason := None;
               RiskCheckResult.suggestedMaxSize := None |}
  | _, _ =>
      (* [!order.quantity || !order.price] with a field missing *)
      {| RiskCheckResult.allowed := false;
         RiskCheckResult.reason := Some "Invalid order parameters";
         RiskCheckResult.suggestedMaxSize := None |}
  end.

(** One call of a public mutating method. *)
Inductive call : Type :=
| ExecuteOrder (d : Draws.t) (orderData : PartialOrder.t)
    (userBalance : xnumber) (currentPrice : number)
| CancelOrder (now : number) (orderId : string)
| ClosePosition (d : Draws.t) (positionId : string) (currentPrice : number).

Definition step `{Host} (c : call) (e : t) : t :=
  match c with
  | ExecuteOrder d orderData userBalance currentPrice =>
      fst (executeOrder d orderData userBalance currentPrice e)
  | CancelOrder now orderId => fst (cancelOrder now orderId e)
  | ClosePosition d positionId currentPrice =>
      fst (closePosition d positionId currentPrice e)
  end.

(** The engine states a program can reach from a fresh instance. *)
Inductive reachable `{Host} : t -> Prop :=
| reachable_init : reachable init
| reachable_step (c : call) (e : t) : reachable e -> reachable (step c e).

(** Running a list of calls in order. *)
Definition run `{Host} (calls : list call) (e : t) : t :=
  fold_left (fun e c => step c e) calls e.

End TradingEngine.

(** ** [class RiskManager]: the metrics *)

Inductive LiquidationRisk : Type := low | medium | high.

Module RiskLimits.
Record t : Type := mk {
  maxMarginUtilization : number;
  maxPositionSize : number;
  maxDailyLoss : number;
  maxConcurrentPositions : number;
  maxLeveragePerPosition : number
}.
End RiskLimits.

Module RiskMetrics.
Record t : Type := mk {
  totalExposure : number;
  availableMargin : number;
  marginUsed : number;
  marginUtilization : number;
  totalUnrealizedPnl : number;
  totalRealizedPnl : number;
  riskScore : number;
  maxPositionSize : number;
  liquidationRisk : LiquidationRisk;
  warnings : list string
}.
End RiskMetrics.

Module RiskManager.

(** The initial value of the private field [limits]. *)
Definition defaultLimits : RiskLimits.t :=
  {| RiskLimits.maxMarginUtilization := 8 # 10;
     RiskLimits.maxPositionSize := 10000;
     RiskLimits.maxDailyLoss := 1000;
     RiskLimits.maxConcurrentPositions := 5;
     RiskLimits.maxLeveragePerPosition := 20 |}.

(** [positions.reduce((sum, pos) => sum + f(pos), 0)] *)
Definition sum {A : Type} (f : A -> number) (l : list A) : number :=
  fold_left (fun sum pos => sum + f pos) l 0.

(** [array.length] as a number. *)
Definition len {A : Type} (l : list A) : number := inject_Z (Z.of_nat (List.length l)).

Definition push {A : Type} (l : list A) (x : A) : list A := (l ++ [x])%list.

Section WithLimits.
Context {host : Host}.
Variable limits : RiskLimits.t.

Definition calculateRiskScore (marginUtilization positionCount pnlRatio : number)
    : number :=
  let score : number := 0 in
  (* Margin utilization risk (0-40 points) *)
  let score := score + marginUtilization * 40 in
  (* Position count risk (0-30 points) *)
  let score :=
    score
    + Js.Math_min (positionCount / RiskLimits.maxConcurrentPositions limits) 1 * 30 in
  (* PnL risk (0-30 points) *)
  let score :=
    if Js.ltb pnlRatio 0
    then score + Js.Math_min (Js.Math_abs pnlRatio * 2) 1 * 30
    else score in
  Js.Math_min score 100.

Definition calculateLiquidationRisk (positions : list Position.t)
    (accountBalance : number) : LiquidationRisk :=
  let highLeveragePositions :=
    len (filter (fun pos => Js.gtb (Position.leverage pos) 10) positions) in
  let marginUtilization := sum Position.margin positions / accountBalance in
  let negativePnlCount :=
    len (filter (fun pos => Js.ltb (Position.unrealizedPnl pos) 0) positions) in
  if Js.gtb marginUtilization (9 # 10) || Js.gtb highLeveragePositions 2 then high
  else if Js.gtb marginUtilization (7 # 10) || Js.gtb highLeveragePositions 0
          || Js.gtb negativePnlCount 3 then medium
  else low.

Definition calculateMaxPositionSize (accountBalance marginUsed : number) : number :=
  let availableMargin := accountBalance - marginUsed in
  let maxNewMargin :=
    Js.Math_min (availableMargin * (1 # 2)) (RiskLimits.maxPositionSize limits) in
  maxNewMargin.

Definition generateWarnings (positions : list Position.t) (orders : list Order.t)
    (accountBalance : number) : list string :=
  let warnings : list string := [] in
  let marginUsed := sum Position.margin positions in
  let marginUtilization := marginUsed / accountBalance in
  (* High margin utilization *)
  let warnings :=
    if Js.gtb marginUtilization (RiskLimits.maxMarginUtilization limits)
    then push warnings
           ("High margin utilization: " ++ toFixed 1 (marginUtilization * 100) ++ "%")
    else warnings in
  (* Too many positions *)
  let warnings :=
    if Js.gtb (len positions) (RiskLimits.maxConcurrentPositions limits)
    then push warnings ("Too many concurrent positions: " ++ toString (len positions))
    else warnings in
  (* High leverage positions *)
  let highLeveragePositions :=
    filter (fun pos =>
              Js.gtb (Position.leverage pos) (RiskLimits.maxLeveragePerPosition limits))
           positions in
  let warnings :=
    if Js.gtb (len highLeveragePositions) 0
    then push warnings
           (toString (len highLeveragePositions)
            ++ " position(s) with high leverage (>"
            ++ toString (RiskLimits.maxLeveragePerPosition limits) ++ "x)")
    else warnings in
  (* Large unrealized losses *)
  let totalUnrealizedPnl := sum Position.unrealizedPnl positions in
  let warnings :=
    if Js.ltb totalUnrealizedPnl (- RiskLimits.maxDailyLoss limits)
    then push warnings
           ("Large unrealized losses: $"
            ++ toFixed 2 (Js.Math_abs totalUnrealizedPnl))
    else warnings in
  (* Positions close to liquidation *)
  let riskPositions :=
    filter (fun pos =>
              let pnlPercentage :=
                (Position.unrealizedPnl pos / Position.margin pos) * 100 in
              Js.ltb pnlPercentage (- (50)))
           positions in
  let warnings :=
    if Js.gtb (len riskPositions) 0
    then push warnings
           (toString (len riskPositions) ++ " position(s) at risk of liquidation")
    else warnings in
  warnings.

Definition calculateRiskMetrics (positions : list Position.t) (orders : list Order.t)
    (accountBalance : number) : RiskMetrics.t :=
  let totalExposure :=
    sum (fun pos => Js.Math_abs (Position.size pos * Position.markPrice pos)) positions in
  let marginUsed := sum Position.margin positions in
  let availableMargin := accountBalance - marginUsed in
  let marginUtilization := marginUsed / accountBalance in
  let totalUnrealizedPnl := sum Position.unrealizedPnl positions in
  let totalRealizedPnl := sum Position.realizedPnl positions in
  let riskScore :=
    calculateRiskScore marginUtilization (len positions)
      (totalUnrealizedPnl / accountBalance) in
  let liquidationRisk := calculateLiquidationRisk positions accountBalance in
  let maxPositionSize := calculateMaxPositionSize accountBalance marginUsed in
  let warnings := generateWarnings positions orders accountBalance in
  {| RiskMetrics.totalExposure := totalExposure;
     RiskMetrics.availableMargin := availableMargin;
     RiskMetrics.marginUsed := marginUsed;
     RiskMetrics.marginUtilization := marginUtilization;
     RiskMetrics.totalUnrealizedPnl := totalUnrealizedPnl;
     RiskMetrics.totalRealizedPnl := totalRealizedPnl;
     RiskMetrics.riskScore := riskScore;
     RiskMetrics.maxPositionSize := maxPositionSize;
     RiskMetrics.liquidationRisk := liquidationRisk;
     RiskMetrics.warnings := warnings |}.

End WithLimits.

(** The result of [RiskManager.validateOrder]. *)
Record OrderCheck : Type := mkOrderCheck {
  allowed : bool;
  reasons : list string
}.

(** ['low' | 'medium' | 'high'], the union [LiquidationRisk] already names. *)
Definition Urgency : Type := LiquidationRisk.

Record Recommendation : Type := mkRecommendation {
  action : string;
  reason : string;
  urgency : Urgency
}.

(** [Partial<RiskLimits>]: a key is absent or holds a number. *)
Record PartialRiskLimits : Type := mkPartialRiskLimits {
  newMaxMarginUtilization : option number;
  newMaxPositionSize : option number;
  newMaxDailyLoss : option number;
  newMaxConcurrentPositions : option number;
  newMaxLeveragePerPosition : option number
}.

(** One key of [{ ...this.limits, ...newLimits }]. *)
Definition spread (current : number) (new : option number) : number :=
  match new with
  | Some v => v
  | None => current
  end.

(** [setRiskLimits]: the new value of the private field [limits]. *)
Definition setRiskLimits (newLimits : PartialRiskLimits) (limits : RiskLimits.t)
    : RiskLimits.t :=
  {| RiskLimits.maxMarginUtilization :=
       spread (RiskLimits.maxMarginUtilization limits) (newMaxMarginUtilization newLimits);
     RiskLimits.maxPositionSize :=
       spread (RiskLimits.maxPositionSize limits) (newMaxPositionSize newLimits);
     RiskLimits.maxDailyLoss :=
       spread (RiskLimits.maxDailyLoss limits) (newMaxDailyLoss newLimits);
     RiskLimits.maxConcurrentPositions :=
       spread (RiskLimits.maxConcurrentPositions limits)
              (newMaxConcurrentPositions newLimits);
     RiskLimits.maxLeveragePerPosition :=
       spread (RiskLimits.maxLeveragePerPosition limits)
              (newMaxLeveragePerPosition newLimits) |}.

(** [getRiskLimits]: a copy of the field. *)
Definition getRiskLimits (limits : RiskLimits.t) : RiskLimits.t :=
  {| RiskLimits.maxMarginUtilization := RiskLimits.maxMarginUtilization limits;
     RiskLimits.maxPositionSize := RiskLimits.maxPositionSize limits;
     RiskLimits.maxDailyLoss := RiskLimits.maxDailyLoss limits;
     RiskLimits.maxConcurrentPositions := RiskLimits.maxConcurrentPositions limits;
     RiskLimits.maxLeveragePerPosition := RiskLimits.maxLeveragePerPosition limits |}.

Section WithLocale.
Context {host : Host} {locale : Locale}.
Variable limits : RiskLimits.t.

Definition validateOrder (order : PartialOrder.t) (positions : list Position.t)
    (accountBalance : number) : OrderCheck :=
  let reasons : list string := [] in
  match PartialOrder.quantity order, PartialOrder.price order with
  | Some quantity, Some price =>
      if negb (Js.truthy (Some quantity)) || negb (Js.truthy (Some price)) then
        {| allowed := false; reasons := push reasons "Invalid order parameters" |}
      else
        let orderValue := quantity * price in
        let leverage := Js.or_else (PartialOrder.leverage order) 1 in
        let requiredMargin := orderValue / leverage in
        let currentMarginUsed := sum Position.margin positions in
        let newMarginUtilization :=
          (currentMarginUsed + requiredMargin) / accountBalance in
        (* Check margin limits *)
        let reasons :=
          if Js.gtb newMarginUtilization (RiskLimits.maxMarginUtilization limits)
          then push reasons
                 ("Would exceed margin limit ("
                  ++ toFixed 1 (newMarginUtilization * 100) ++ "%)")
          else reasons in
        (* Check position size limits *)
        let reasons :=
          if Js.gtb orderValue (RiskLimits.maxPositionSize limits)
          then push reasons
                 ("Position size too large (max: $"
                  ++ toLocaleString (RiskLimits.maxPositionSize limits) ++ ")")
          else reasons in
        (* Check position count limits *)
        let reasons :=
          if Js.geb (len positions) (RiskLimits.maxConcurrentPositions limits)
          then push reasons
                 ("Too many positions (max: "
                  ++ toString (RiskLimits.maxConcurrentPositions limits) ++ ")")
          else reasons in
        (* Check leverage limits *)
        let reasons :=
          if Js.gtb leverage (RiskLimits.maxLeveragePerPosition limits)
          then push reasons
                 ("Leverage too high (max: "
                  ++ toString (RiskLimits.maxLeveragePerPosition limits) ++ "x)")
          else reasons in
        (* Check sufficient balance *)
        let reasons :=
          if Js.gtb requiredMargin (accountBalance - currentMarginUsed)
          then push reasons "Insufficient available margin"
          else reasons in
        {| allowed := match reasons with [] => true | _ => false end;
           reasons := reasons |}
  | _, _ =>
      (* [!order.quantity || !order.price] with a field missing *)
      {| allowed := false; reasons := push reasons "Invalid order parameters" |}
  end.

End WithLocale.

Definition getPositionRecommendations (position : Position.t) (currentPrice : number)
    : list Recommendation :=
  let recommendations : list Recommendation := [] in
  let pnlPercentage :=
    (Position.unrealizedPnl position / Position.margin position) * 100 in
  let priceChange :=
    (currentPrice - Position.entryPrice position) / Position.entryPrice position in
  (* Liquidation risk *)
  let recommendations :=
    if Js.ltb pnlPercentage (- (70)) then
      push recommendations
        {| action := "Close position immediately";
           reason := "Position at critical liquidation risk";
           urgency := high |}
    else if Js.ltb pnlPercentage (- (50)) then
      push recommendations
        {| action := "Consider closing position";
           reason := "Position at high liquidation risk";
           urgency := medium |}
    else recommendations in
  (* Profit taking *)
  let recommendations :=
    if Js.gtb pnlPercentage 100 then
      push recommendations
        {| action := "Consider taking partial profits";
           reason := "Position showing strong profits";
           urgency := low |}
    else recommendations in
  (* High leverage warning *)
  let recommendations :=
    if Js.gtb (Position.leverage position) 10
       && Js.gtb (Js.Math_abs priceChange) (5 # 100) then
      push recommendations
        {| action := "Monitor position closely";
           reason := "High leverage position with significant price movement";
           urgency := medium |}
    else recommendations in
  recommendations.

End RiskManager.

(** ** A host for the closed examples

    Whole numbers are printed in decimal, as JS prints them; the examples
    format no other value in an id or a key. *)

Definition decimal (q : number) : string :=
  let r := Qred q in
  let whole := DecimalString.NilZero.string_of_int (Z.to_int (Qnum r)) in
  match Qden r with
  | xH => whole
  | den => whole ++ "/" ++ DecimalString.NilZero.string_of_uint (Pos.to_uint den)
  end.

Definition exampleHost : Host :=
  {| toString := decimal; toFixed := fun _ => decimal |}.

Definition exampleLocale : Locale :=
  {| toLocaleString := decimal |}.

(** ** Vocabulary of the statements *)

Module Spec.
Import TradingEngine.

(** The balance check of [validateOrder] fires. *)
Definition insufficientBalance (order : PartialOrder.t) (userBalance : xnumber) : bool :=
  match PartialOrder.side order, PartialOrder.quantity order, PartialOrder.price order with
  | Some buy, Some q, Some p =>
      Js.truthy (Some q) && Js.truthy (Some p) && X.gtb (q * p) userBalance
  | _, _, _ => false
  end.

(** The minimum-size check of [validateOrder] fires. *)
Definition belowMinimum (order : PartialOrder.t) : bool :=
  match PartialOrder.quantity order, PartialOrder.price order with
  | Some q, Some p => Js.truthy (Some q) && Js.truthy (Some p) && Js.ltb (q * p) 10
  | _, _ => false
  end.

(** Some hard error of [validateOrder] fires. *)
Definition rejects (order : PartialOrder.t) (userBalance : xnumber) : bool :=
  negb (Js.truthy_string (PartialOrder.symbol order))
  || negb (Js.present (PartialOrder.side order))
  || (negb (Js.truthy (PartialOrder.quantity order))
      || test (fun q => Js.leb q 0) (PartialOrder.quantity order))
  || negb (Js.present (PartialOrder.type order))
  || (is_type (PartialOrder.type order) limit
      && (negb (Js.truthy (PartialOrder.price order))
          || test (fun p => Js.leb p 0) (PartialOrder.price order)))
  || insufficientBalance order userBalance
  || belowMinimum order.

Definition is_nil {A : Type} (l : list A) : bool :=
  match l with
  | [] => true
  | _ :: _ => false
  end.

(** An error message of the balance check. *)
Definition isInsufficientBalanceError (message : string) : bool :=
  String.prefix "Insufficient balance." message.

(** [a > b] as a proposition, for a balance that may be [Infinity]. *)
Definition exceeds (a : number) (b : xnumber) : Prop :=
  match b with
  | Fin q => q < a
  | Infinity => False
  end.

(** The same order on the other side of the book. *)
Definition withSide (order : PartialOrder.t) (side' : Side) : PartialOrder.t :=
  {| PartialOrder.symbol := PartialOrder.symbol order;
     PartialOrder.side := Some side';
     PartialOrder.type := PartialOrder.type order;
     PartialOrder.quantity := PartialOrder.quantity order;
     PartialOrder.price := PartialOrder.price order;
     PartialOrder.leverage := PartialOrder.leverage order;
     PartialOrder.stopLoss := PartialOrder.stopLoss order;
     PartialOrder.takeProfit := PartialOrder.takeProfit order;
     PartialOrder.timeInForce := PartialOrder.timeInForce order |}.

(** A fill is in the direction of a position: a buy on a long, a sell on a
    short. *)
Definition sameDirection (trade : Trade.t) (position : Position.t) : Prop :=
  (Trade.side trade = buy /\ 0 < Position.size position)
  \/ (Trade.side trade = sell /\ Position.size position < 0).

(** A fill is against a position: a buy on a short, a sell on a long. *)
Definition oppositeDirection (trade : Trade.t) (position : Position.t) : Prop :=
  (Trade.side trade = buy /\ Position.size position < 0)
  \/ (Trade.side trade = sell /\ 0 < Position.size position).

(** No stored order is waiting: each one is [filled] or [rejected]. *)
Definition settled (e : t) : Prop :=
  forall (id : string) (o : Order.t),
    JsMap.get id (orders e) = Some o ->
    Order.status o = filled \/ Order.status o = rejected.

(** An order, a fill and a position for the examples. *)
Definition order (symbol : string) (side : Side) (type : OrderType)
    (quantity : number) (price leverage : option number) : PartialOrder.t :=
  {| PartialOrder.symbol := Some symbol;
     PartialOrder.side := Some side;
     PartialOrder.type := Some type;
     PartialOrder.quantity := Some quantity;
     PartialOrder.price := price;
     PartialOrder.leverage := leverage;
     PartialOrder.stopLoss := None;
     PartialOrder.takeProfit := None;
     PartialOrder.timeInForce := None |}.

Definition fill (symbol : string) (side : Side) (quantity price : number)
    (leverage : option number) : Trade.t :=
  {| Trade.id := "trade-0-example";
     Trade.orderId := None;
     Trade.symbol := symbol;
     Trade.side := side;
     Trade.quantity := quantity;
     Trade.price := price;
     Trade.timestamp := 0;
     Trade.fee := calculateFee quantity price;
     Trade.leverage := leverage |}.

Definition holding (symbol : string) (size entryPrice leverage : number) : Position.t :=
  {| Position.id := "pos-0";
     Position.symbol := symbol;
     Position.side := side_of (if Js.ltb size 0 then sell else buy);
     Position.size := size;
     Position.entryPrice := entryPrice;
     Position.markPrice := entryPrice;
     Position.pnl := 0;
     Position.pnlPercent := 0;
     Position.unrealizedPnl := 0;
     Position.realizedPnl := 0;
     Position.margin := (Js.Math_abs size * entryPrice) / leverage;
     Position.leverage := leverage;
     Position.liquidationPrice := None;
     Position.timestamp := 0;
     Position.stopLoss := None;
     Position.takeProfit := None |}.

(** An engine holding one position under the key of a fill. *)
Definition book (key : string) (position : Position.t) : t :=
  {| orders := JsMap.empty;
     positions := JsMap.set key position JsMap.empty;
     trades := [];
     orderCounter := 0 |}.

Definition draws (now : number) : Draws.t :=
  {| Draws.now_orderId := now;
     Draws.now_order := now;
     Draws.random_slippage := 1 # 2;
     Draws.now_tradeId := now;
     Draws.random_tradeId := "k3x9q1z7p";
     Draws.now_trade := now;
     Draws.now_position := now;
     Draws.now_filledAt := now |}.

End Spec.

Module Notions.

(** [a <= b] on balances, [Infinity] being the largest. *)
Definition xle (a b : xnumber) : Prop :=
  match a, b with
  | Fin x, Fin y => x <= y
  | _, Infinity => True
  | Infinity, Fin _ => False
  end.

(** A limit price that crosses the current price. *)
Definition marketable (side : Side) (price currentPrice : number) : Prop :=
  (side = buy /\ currentPrice <= price) \/ (side = sell /\ price <= currentPrice).

(** One list continues another. *)
Definition extends {A : Type} (l' l : list A) : Prop :=
  exists suffix, l' = (l ++ suffix)%list.

(** A field that [!x] treats as missing: absent, or 0. *)
Definition missing (o : option number) : Prop :=
  o = None \/ exists q, o = Some q /\ q == 0.

(** The same order for another quantity. *)
Definition withQuantity (order : PartialOrder.t) (quantity' : number) : PartialOrder.t :=
  {| PartialOrder.symbol := PartialOrder.symbol order;
     PartialOrder.side := PartialOrder.side order;
     PartialOrder.type := PartialOrder.type order;
     PartialOrder.quantity := Some quantity';
     PartialOrder.price := PartialOrder.price order;
     PartialOrder.leverage := PartialOrder.leverage order;
     PartialOrder.stopLoss := PartialOrder.stopLoss order;
     PartialOrder.takeProfit := PartialOrder.takeProfit order;
     PartialOrder.timeInForce := PartialOrder.timeInForce order |}.

(** [{ maxConcurrentPositions: cap }] as an argument of [setRiskLimits]. *)
Definition onlyMaxConcurrentPositions (cap : number) : RiskManager.PartialRiskLimits :=
  {| RiskManager.newMaxMarginUtilization := None;
     RiskManager.newMaxPositionSize := None;
     RiskManager.newMaxDailyLoss := None;
     RiskManager.newMaxConcurrentPositions := Some cap;
     RiskManager.newMaxLeveragePerPosition := None |}.

(** An engine holding one order that is still [pending]. *)
Definition waiting (id : string) : TradingEngine.t :=
  {| TradingEngine.orders :=
       JsMap.set id
         {| Order.id := id;
            Order.symbol := "BTC";
            Order.side := buy;
            Order.type := limit;
            Order.quantity := 1;
            Order.price := Some 90;
            Order.status := pending;
            Order.timestamp := 0;
            Order.leverage := Some 1;
            Order.stopLoss := None;
            Order.takeProfit := None;
            Order.timeInForce := Some GTC;
            Order.filledQuantity := None;
            Order.averagePrice := None;
            Order.filledAt := None;
            Order.cancelledAt := None;
            Order.rejectedReason := None |}
         JsMap.empty;
     TradingEngine.positions := JsMap.empty;
     TradingEngine.trades := [];
     TradingEngine.orderCounter := 0 |}.

(** Every stored order is [filled]. *)
Definition allFilled (e : TradingEngine.t) : Prop :=
  forall (id : string) (o : Order.t),
    JsMap.get id (TradingEngine.orders e) = Some o -> Order.status o = filled.

End Notions.

(** * Properties *)

(** ** Comparisons and truthiness *)

Section JsFacts.

Lemma ltb_lt (a b : number) : Js.ltb a b = true <-> a < b.
Proof.
  unfold Js.ltb. rewrite negb_true_iff, <- not_true_iff_false, Qle_bool_iff.
  split; [apply Qnot_le_lt | apply Qlt_not_le].
Qed.

Lemma ltb_ge (a b : number) : Js.ltb a b = false <-> b <= a.
Proof.
  unfold Js.ltb. rewrite negb_false_iff. apply Qle_bool_iff.
Qed.

Lemma leb_le (a b : number) : Js.leb a b = true <-> a <= b.
Proof. apply Qle_bool_iff. Qed.

Lemma leb_gt (a b : number) : Js.leb a b = false <-> b < a.
Proof.
  unfold Js.leb. rewrite <- not_true_iff_false, Qle_bool_iff.
  split; [apply Qnot_le_lt | apply Qlt_not_le].
Qed.

Lemma gtb_gt (a b : number) : Js.gtb a b = true <-> b < a.
Proof. apply ltb_lt. Qed.

Lemma geb_ge (a b : number) : Js.geb a b = true <-> b <= a.
Proof. apply leb_le. Qed.

Lemma geb_lt (a b : number) : Js.geb a b = false <-> a < b.
Proof. apply leb_gt. Qed.

Lemma eqb_eq (a b : number) : Js.eqb a b = true <-> a == b.
Proof. apply Qeq_bool_iff. Qed.

Lemma truthy_Some (q : number) : Js.truthy (Some q) = true <-> ~ q == 0.
Proof.
  unfold Js.truthy. rewrite negb_true_iff, <- not_true_iff_false, Qeq_bool_iff.
  reflexivity.
Qed.

Lemma or_else_truthy (q d : number) : ~ q == 0 -> Js.or_else (Some q) d = q.
Proof.
  intros Hq. unfold Js.or_else.
  destruct (Qeq_bool q 0) eqn:E; [ | reflexivity].
  apply Qeq_bool_iff in E. contradiction.
Qed.

Lemma or_else_nonzero (o : option number) (d : number) :
  ~ d == 0 -> ~ Js.or_else o d == 0.
Proof.
  intros Hd. destruct o as [q|]; simpl; [ | exact Hd].
  destruct (Qeq_bool q 0) eqn:E; [exact Hd | ].
  now apply Qeq_bool_neq.
Qed.

Lemma Math_min_Qmin (a b : number) : Js.Math_min a b == Qmin a b.
Proof.
  unfold Js.Math_min. destruct (Js.leb a b) eqn:E.
  - apply leb_le in E. symmetry. now apply Q.min_l.
  - apply leb_gt in E. symmetry. apply Q.min_r. now apply Qlt_le_weak.
Qed.

Lemma Math_sign_pos (a : number) : 0 < a -> Js.Math_sign a = 1.
Proof.
  unfold Js.Math_sign, Qlt. destruct a as [n dd]; simpl. intros H.
  replace (Z.sgn n) with 1%Z by lia. reflexivity.
Qed.

Lemma Math_sign_neg (a : number) : a < 0 -> Js.Math_sign a = inject_Z (-1).
Proof.
  unfold Js.Math_sign, Qlt. destruct a as [n dd]; simpl. intros H.
  replace (Z.sgn n) with (-1)%Z by lia. reflexivity.
Qed.

End JsFacts.

(** ** The map *)

Section JsMapFacts.
Context {V : Type}.

Lemma get_set_same (k : string) (v : V) (m : JsMap.t V) :
  JsMap.get k (JsMap.set k v m) = Some v.
Proof.
  induction m as [ | [k' v'] rest IH]; simpl.
  - now rewrite String.eqb_refl.
  - destruct (String.eqb k k') eqn:E; simpl; rewrite E; [reflexivity | exact IH].
Qed.

Lemma get_set_other (k k' : string) (v : V) (m : JsMap.t V) :
  k <> k' -> JsMap.get k' (JsMap.set k v m) = JsMap.get k' m.
Proof.
  intros Hne. induction m as [ | [k0 v0] rest IH]; simpl.
  - apply not_eq_sym in Hne. apply String.eqb_neq in Hne. now rewrite Hne.
  - destruct (String.eqb k k0) eqn:E; simpl.
    + apply String.eqb_eq in E. subst k0.
      apply not_eq_sym in Hne. apply String.eqb_neq in Hne. now rewrite Hne.
    + now rewrite IH.
Qed.

Lemma get_set (k k' : string) (v : V) (m : JsMap.t V) :
  JsMap.get k' (JsMap.set k v m)
  = if String.eqb k' k then Some v else JsMap.get k' m.
Proof.
  destruct (String.eqb k' k) eqn:E.
  - apply String.eqb_eq in E. subst. apply get_set_same.
  - apply String.eqb_neq in E. apply get_set_other. congruence.
Qed.

End JsMapFacts.

(** ** [validateOrder] *)

Section Validation.
Context {host : Host}.
Import TradingEngine Spec.

Lemma is_nil_push_if {A : Type} (c : bool) (l : list A) (x : A) :
  is_nil (if c then push l x else l) = negb c && is_nil l.
Proof. destruct c; [destruct l | ]; reflexivity. Qed.

Lemma is_nil_push_if2 {A : Type} (c c' : bool) (l : list A) (x : A) :
  is_nil (if c then if c' then push l x else l else l) = negb (c && c') && is_nil l.
Proof. destruct c, c'; try reflexivity; destruct l; reflexivity. Qed.

Lemma isValid_is_nil (order : PartialOrder.t) (userBalance : xnumber)
    (currentPrice : number) :
  OrderValidationResult.isValid (validateOrder order userBalance currentPrice)
  = is_nil (OrderValidationResult.errors (validateOrder order userBalance currentPrice)).
Proof.
  unfold validateOrder; cbv zeta; cbn [OrderValidationResult.isValid
    OrderValidationResult.errors is_nil].
  match goal with |- match ?e with _ => _ end = _ => destruct e end; reflexivity.
Qed.

Ltac name_tests :=
  repeat match goal with
  | |- context [Js.truthy_string ?a] => generalize (Js.truthy_string a); intros ?
  | |- context [Js.truthy ?a] => generalize (Js.truthy a); intros ?
  | |- context [Js.leb ?a ?b] => generalize (Js.leb a b); intros ?
  | |- context [Js.ltb ?a ?b] => generalize (Js.ltb a b); intros ?
  | |- context [X.gtb ?a ?b] => generalize (X.gtb a b); intros ?
  | |- context [is_type ?a ?b] => generalize (is_type a b); intros ?
  | |- context [@Js.present ?A ?a] => generalize (@Js.present A a); intros ?
  end.

(** [validateOrder] accepts an order exactly when no hard error fires. *)
Lemma isValid_rejects (order : PartialOrder.t) (userBalance : xnumber)
    (currentPrice : number) :
  OrderValidationResult.isValid (validateOrder order userBalance currentPrice)
  = negb (rejects order userBalance).
Proof.
  rewrite isValid_is_nil.
  unfold validateOrder; cbv zeta; cbn [OrderValidationResult.errors].
  destruct order as [sym sd ty q p lev sl tp tif];
    unfold rejects, insufficientBalance, belowMinimum;
    cbn [PartialOrder.symbol PartialOrder.side PartialOrder.type
         PartialOrder.quantity PartialOrder.price].
  destruct sd as [[|]|]; destruct q as [q|]; destruct p as [p|];
    repeat (rewrite is_nil_push_if2 || rewrite is_nil_push_if); cbn [is_nil test];
    name_tests;
    repeat match goal with b : bool |- _ => destruct b end; reflexivity.
Qed.

(** A valid order has a non-empty symbol, a side, a type and a positive
    quantity, and a positive price when it is a limit order. *)
Lemma validateOrder_fields (order : PartialOrder.t) (userBalance : xnumber)
    (currentPrice : number) :
  OrderValidationResult.isValid (validateOrder order userBalance currentPrice) = true ->
  exists symbol side type quantity,
    PartialOrder.symbol order = Some symbol
    /\ PartialOrder.side order = Some side
    /\ PartialOrder.type order = Some type
    /\ PartialOrder.quantity order = Some quantity
    /\ 0 < quantity
    /\ (type = limit ->
        exists price, PartialOrder.price order = Some price /\ 0 < price).
Proof.
  rewrite isValid_rejects, negb_true_iff. unfold rejects.
  destruct order as [sym sd ty q p lev sl tp tif];
    cbn [PartialOrder.symbol PartialOrder.side PartialOrder.type
         PartialOrder.quantity PartialOrder.price].
  intros H.
  apply orb_false_iff in H; destruct H as [H Hmin].
  apply orb_false_iff in H; destruct H as [H Hbal].
  apply orb_false_iff in H; destruct H as [H Hprice].
  apply orb_false_iff in H; destruct H as [H Htype].
  apply orb_false_iff in H; destruct H as [H Hqty].
  apply orb_false_iff in H; destruct H as [Hsym Hside].
  apply orb_false_iff in Hqty; destruct Hqty as [Hq0 Hq].
  destruct sym as [sym|]; [ | discriminate].
  destruct sd as [sd|]; [ | discriminate].
  destruct ty as [ty|]; [ | discriminate].
  destruct q as [q|]; [ | discriminate].
  exists sym, sd, ty, q. repeat split.
  - simpl in Hq. now apply leb_gt.
  - intros ->. simpl in Hprice.
    apply orb_false_iff in Hprice; destruct Hprice as [Hp0 Hp].
    destruct p as [p|]; [ | discriminate].
    exists p. split; [reflexivity | ]. simpl in Hp. now apply leb_gt.
Qed.

End Validation.

Section BalanceGate.
Context {host : Host}.
Import TradingEngine Spec.

Lemma gtb_exceeds (a : number) (b : xnumber) : X.gtb a b = true <-> exceeds a b.
Proof.
  destruct b as [q|]; simpl; [apply gtb_gt | ]. split; [discriminate | contradiction].
Qed.

Lemma Exists_push {A : Type} (P : A -> Prop) (l : list A) (x : A) :
  P x -> Exists P (push l x).
Proof. intros Hx. apply Exists_app. right. now constructor. Qed.

Lemma Exists_push_if {A : Type} (P : A -> Prop) (c : bool) (l : list A) (x : A) :
  Exists P l -> Exists P (if c then push l x else l).
Proof. intros Hl. destruct c; [ | exact Hl]. apply Exists_app. now left. Qed.

Lemma Forall_push_if {A : Type} (P : A -> Prop) (c : bool) (l : list A) (x : A) :
  P x -> Forall P l -> Forall P (if c then push l x else l).
Proof.
  intros Hx Hl. destruct c; [ | exact Hl].
  apply Forall_app. split; [exact Hl | now constructor].
Qed.

(** C5, as amended: a buy with a positive quantity and a present, non-zero
    price whose notional exceeds the balance is invalid and carries an
    insufficient-balance error; the same order as a sell carries none. *)
Theorem balance_gate_buy_only (order : PartialOrder.t) (userBalance : xnumber)
    (currentPrice quantity price : number) :
  PartialOrder.side order = Some buy ->
  PartialOrder.quantity order = Some quantity ->
  0 < quantity ->
  PartialOrder.price order = Some price ->
  ~ price == 0 ->
  exceeds (quantity * price) userBalance ->
  let asBuy := validateOrder order userBalance currentPrice in
  let asSell := validateOrder (withSide order sell) userBalance currentPrice in
  OrderValidationResult.isValid asBuy = false
  /\ Exists (fun message => isInsufficientBalanceError message = true)
            (OrderValidationResult.errors asBuy)
  /\ Forall (fun message => isInsufficientBalanceError message = false)
            (OrderValidationResult.errors asSell).
Proof.
  intros Hside Hq Hqpos Hp Hp0 Hex asBuy asSell.
  assert (Hqt : Js.truthy (Some quantity) = true).
  { apply truthy_Some. intros E. rewrite E in Hqpos. now apply Qlt_irrefl in Hqpos. }
  assert (Hpt : Js.truthy (Some price) = true) by now apply truthy_Some.
  apply gtb_exceeds in Hex.
  split; [ | split].
  - subst asBuy. rewrite isValid_rejects. unfold rejects, insufficientBalance.
    rewrite Hside, Hq, Hp, Hqt, Hpt, Hex. cbn [andb].
    now rewrite orb_true_r.
  - subst asBuy. unfold validateOrder; cbv zeta; cbn [OrderValidationResult.errors].
    rewrite Hside, Hq, Hp, Hqt, Hpt, Hex. cbn [andb].
    apply Exists_push_if, Exists_push. reflexivity.
  - subst asSell. unfold validateOrder; cbv zeta; cbn [OrderValidationResult.errors].
    destruct order as [sym sd ty q p lev sl tp tif]; simpl in Hq, Hp; subst q p.
    cbn [withSide PartialOrder.symbol PartialOrder.side PartialOrder.type
         PartialOrder.quantity PartialOrder.price].
    repeat (apply Forall_push_if; [reflexivity | ]). constructor.
Qed.

End BalanceGate.

(** ** [executeOrder] *)

Section Execution.
Context {host : Host}.
Import TradingEngine Spec.

(** An invalid order returns before anything is created. *)
Lemma executeOrder_invalid (d : Draws.t) (orderData : PartialOrder.t)
    (userBalance : xnumber) (currentPrice : number) (e : t) :
  OrderValidationResult.isValid (validateOrder orderData userBalance currentPrice)
  = false ->
  executeOrder d orderData userBalance currentPrice e
  = (e, failure (Js.join ", " (OrderValidationResult.errors
                                 (validateOrder orderData userBalance currentPrice)))).
Proof. intros Hinvalid. unfold executeOrder. now rewrite Hinvalid. Qed.

(** C7: when [validateOrder] reports the order invalid, [executeOrder]
    returns a failure whose error is the validation errors joined with a
    comma and a space, stores no order, and leaves orders, positions and
    trades as they were. *)
Theorem executeOrder_invalid_stores_nothing (d : Draws.t) (orderData : PartialOrder.t)
    (userBalance : xnumber) (currentPrice : number) (e : t) :
  OrderValidationResult.isValid (validateOrder orderData userBalance currentPrice)
  = false ->
  let '(e', result) := executeOrder d orderData userBalance currentPrice e in
  OrderExecutionResult.success result = false
  /\ OrderExecutionResult.error result
     = Some (Js.join ", " (OrderValidationResult.errors
                              (validateOrder orderData userBalance currentPrice)))
  /\ OrderExecutionResult.orderId result = None
  /\ OrderExecutionResult.trade result = None
  /\ orders e' = orders e
  /\ positions e' = positions e
  /\ trades e' = trades e
  /\ e' = e.
Proof.
  intros Hinvalid. rewrite (executeOrder_invalid d _ _ _ e Hinvalid).
  cbn [failure OrderExecutionResult.success OrderExecutionResult.error
       OrderExecutionResult.orderId OrderExecutionResult.trade].
  repeat split.
Qed.

(** Neither way of executing an order touches the order table. *)
Lemma updatePosition_orders (d : Draws.t) (trade : Trade.t) (e : t) :
  orders (updatePosition d trade e) = orders e.
Proof. reflexivity. Qed.

Lemma executeMarketOrder_orders (d : Draws.t) (order : Order.t) (currentPrice : number)
    (e : t) :
  orders (fst (executeMarketOrder d order currentPrice e)) = orders e.
Proof. reflexivity. Qed.

Lemma executeLimitOrder_orders (d : Draws.t) (order : Order.t) (currentPrice : number)
    (e : t) :
  orders (fst (executeLimitOrder d order currentPrice e)) = orders e.
Proof.
  unfold executeLimitOrder. destruct (Order.price order); [ | reflexivity].
  match goal with |- context [if ?c then _ else _] => destruct c end; reflexivity.
Qed.

(** Both ways of executing an order report success. *)
Lemma executeMarketOrder_success (d : Draws.t) (order : Order.t)
    (currentPrice : number) (e : t) :
  OrderExecutionResult.success (snd (executeMarketOrder d order currentPrice e)) = true.
Proof. reflexivity. Qed.

Lemma executeLimitOrder_success (d : Draws.t) (order : Order.t)
    (currentPrice : number) (e : t) :
  OrderExecutionResult.success (snd (executeLimitOrder d order currentPrice e)) = true.
Proof.
  unfold executeLimitOrder. destruct (Order.price order); [ | reflexivity].
  match goal with |- context [if ?c then _ else _] => destruct c end; reflexivity.
Qed.

(** C1: a valid limit order that is not marketable succeeds with executed
    quantity 0 and no trade, appends no trade, leaves the positions as they
    were, and is stored with status [filled] and filled quantity 0. *)
Theorem non_marketable_limit_order (d : Draws.t) (orderData : PartialOrder.t)
    (userBalance : xnumber) (currentPrice : number) (e : t)
    (side : Side) (price : number) :
  OrderValidationResult.isValid (validateOrder orderData userBalance currentPrice)
  = true ->
  PartialOrder.type orderData = Some limit ->
  PartialOrder.side orderData = Some side ->
  PartialOrder.price orderData = Some price ->
  (side = buy /\ price < currentPrice) \/ (side = sell /\ currentPrice < price) ->
  let '(e', result) := executeOrder d orderData userBalance currentPrice e in
  OrderExecutionResult.success result = true
  /\ OrderExecutionResult.executedQuantity result = Some 0
  /\ OrderExecutionResult.trade result = None
  /\ trades e' = trades e
  /\ positions e' = positions e
  /\ exists id stored,
       OrderExecutionResult.orderId result = Some id
       /\ JsMap.get id (orders e') = Some stored
       /\ Order.status stored = filled
       /\ Order.filledQuantity stored = Some 0.
Proof.
  intros Hvalid Htype Hside Hprice Hnm.
  destruct (validateOrder_fields _ _ _ Hvalid)
    as (sym & sd & ty & q & Hsym & Hsd & Hty & Hq & Hqpos & Hlimit).
  rewrite Htype in Hty; injection Hty as <-.
  rewrite Hside in Hsd; injection Hsd as <-.
  destruct (Hlimit eq_refl) as (p & Hp & Hppos).
  rewrite Hprice in Hp; injection Hp as <-.
  assert (Hp0 : ~ price == 0).
  { intros E. rewrite E in Hppos. now apply Qlt_irrefl in Hppos. }
  unfold executeOrder. rewrite Hvalid, Hsym, Hside, Htype, Hq, Hprice.
  cbn [negb generateOrderId]. unfold executeLimitOrder. cbn [Order.price Order.side].
  rewrite (or_else_truthy _ _ Hp0).
  assert (Hno : (Side_eqb side buy && Js.geb price currentPrice)
                || (Side_eqb side sell && Js.leb price currentPrice) = false).
  { destruct Hnm as [[-> Hlt] | [-> Hlt]]; cbn [Side_eqb andb orb].
    - rewrite orb_false_r. now apply geb_lt.
    - now apply leb_gt. }
  rewrite Hno. cbn [negb queued OrderExecutionResult.success
    OrderExecutionResult.executedQuantity OrderExecutionResult.executedPrice
    OrderExecutionResult.trade OrderExecutionResult.orderId
    OrderExecutionResult.error with_orders trades positions orders].
  repeat split.
  eexists. eexists. split; [reflexivity | ]. split; [apply get_set_same | ].
  split; reflexivity.
Qed.

(** C8: a valid market order at reference price [p > 0], with the random
    draw in [[0, 1)] and [s] the slippage it gives, executes at [p * (1 + s)]
    for a buy and at [p * (1 - s)] for a sell, where [0 <= s < 0.001]; for
    [p = 100] that is within [[100, 100.1]] for a buy and [[99.9, 100]] for a
    sell. *)
Theorem market_order_slippage (d : Draws.t) (orderData : PartialOrder.t)
    (userBalance : xnumber) (p : number) (e : t) (side : Side) :
  OrderValidationResult.isValid (validateOrder orderData userBalance p) = true ->
  PartialOrder.type orderData = Some market ->
  PartialOrder.side orderData = Some side ->
  0 < p ->
  0 <= Draws.random_slippage d ->
  Draws.random_slippage d < 1 ->
  let s := Draws.random_slippage d * (1 # 1000) in
  let result := snd (executeOrder d orderData userBalance p e) in
  0 <= s
  /\ s < 1 # 1000
  /\ exists executedPrice trade,
       OrderExecutionResult.executedPrice result = Some executedPrice
       /\ OrderExecutionResult.trade result = Some trade
       /\ Trade.price trade = executedPrice
       /\ executedPrice == match side with
                           | buy => p * (1 + s)
                           | sell => p * (1 - s)
                           end
       /\ (p == 100 ->
           match side with
           | buy => 100 <= executedPrice /\ executedPrice <= 1001 # 10
           | sell => 999 # 10 <= executedPrice /\ executedPrice <= 100
           end).
Proof.
  intros Hvalid Htype Hside Hp Hr0 Hr1 s result.
  destruct (validateOrder_fields _ _ _ Hvalid)
    as (sym & sd & ty & q & Hsym & Hsd & Hty & Hq & Hqpos & _).
  rewrite Htype in Hty; injection Hty as <-.
  rewrite Hside in Hsd; injection Hsd as <-.
  assert (Hs0 : 0 <= s) by (subst s; lra).
  assert (Hs1 : s < 1 # 1000) by (subst s; lra).
  split; [exact Hs0 | split; [exact Hs1 | ]].
  subst result. unfold executeOrder. rewrite Hvalid, Hsym, Hside, Htype, Hq.
  cbn [negb generateOrderId executeMarketOrder snd Order.side
       OrderExecutionResult.executedPrice OrderExecutionResult.trade].
  eexists. eexists. split; [reflexivity | ]. split; [reflexivity | ].
  split; [reflexivity | ]. fold s.
  destruct side.
  - split; [ring | ]. intros H100. rewrite H100. split; lra.
  - split; [ring | ]. intros H100. rewrite H100. split; lra.
Qed.

(** A valid order is stored under the id the call returns, first as
    [pending] and, when the call returns, as [filled] or [rejected]. *)
Lemma executeOrder_stored (d : Draws.t) (orderData : PartialOrder.t)
    (userBalance : xnumber) (currentPrice : number) (e : t) :
  OrderValidationResult.isValid (validateOrder orderData userBalance currentPrice)
  = true ->
  exists id placed final,
    OrderExecutionResult.orderId
      (snd (executeOrder d orderData userBalance currentPrice e)) = Some id
    /\ orders (fst (executeOrder d orderData userBalance currentPrice e))
       = JsMap.set id final (JsMap.set id placed (orders e))
    /\ Order.status placed = pending
    /\ (Order.status final = filled \/ Order.status final = rejected).
Proof.
  intros Hvalid.
  destruct (validateOrder_fields _ _ _ Hvalid)
    as (sym & sd & ty & q & Hsym & Hsd & Hty & Hq & Hqpos & _).
  unfold executeOrder. rewrite Hvalid, Hsym, Hsd, Hty, Hq.
  cbn [negb generateOrderId].
  destruct ty.
  - cbn [executeMarketOrder fst snd OrderExecutionResult.success
         OrderExecutionResult.orderId orders with_orders updatePosition
         with_positions with_trades].
    eexists. eexists. eexists. split; [reflexivity | ]. split; [reflexivity | ].
    split; [reflexivity | left; reflexivity].
  - unfold executeLimitOrder. cbn [Order.price].
    match goal with |- context [if negb ?c then _ else _] => destruct c end;
      cbn [negb queued fst snd OrderExecutionResult.success
           OrderExecutionResult.orderId orders with_orders updatePosition
           with_positions with_trades];
      (eexists; eexists; eexists; split; [reflexivity | ]; split; [reflexivity | ];
       split; [reflexivity | left; reflexivity]).
Qed.

(** The fills the engine produces have a positive quantity and a non-zero
    leverage: the hypotheses on a fill in the statements about
    [updatePosition] below. *)
Lemma executeOrder_trade_wellformed (d : Draws.t) (orderData : PartialOrder.t)
    (userBalance : xnumber) (currentPrice : number) (e : t) (trade : Trade.t) :
  OrderExecutionResult.trade
    (snd (executeOrder d orderData userBalance currentPrice e)) = Some trade ->
  0 < Trade.quantity trade
  /\ exists leverage, Trade.leverage trade = Some leverage /\ ~ leverage == 0.
Proof.
  destruct (OrderValidationResult.isValid
              (validateOrder orderData userBalance currentPrice)) eqn:Hvalid.
  - destruct (validateOrder_fields _ _ _ Hvalid)
      as (sym & sd & ty & q & Hsym & Hsd & Hty & Hq & Hqpos & _).
    unfold executeOrder. rewrite Hvalid, Hsym, Hsd, Hty, Hq.
    cbn [negb generateOrderId].
    destruct ty.
    + cbn [executeMarketOrder snd OrderExecutionResult.trade Order.quantity
           Order.leverage].
      intros Ht; injection Ht as <-. cbn [Trade.quantity Trade.leverage].
      split; [exact Hqpos | ]. eexists. split; [reflexivity | ].
      apply or_else_nonzero. discriminate.
    + unfold executeLimitOrder. cbn [Order.price].
      match goal with |- context [if negb ?c then _ else _] => destruct c end;
        cbn [negb queued snd OrderExecutionResult.trade Order.quantity Order.leverage];
        [ | discriminate].
      intros Ht; injection Ht as <-. cbn [Trade.quantity Trade.leverage].
      split; [exact Hqpos | ]. eexists. split; [reflexivity | ].
      apply or_else_nonzero. discriminate.
  - rewrite (executeOrder_invalid d _ _ _ e Hvalid). discriminate.
Qed.

End Execution.

(** ** [cancelOrder] and the life of an order *)

Section Lifecycle.
Context {host : Host}.
Import TradingEngine Spec.

(** C6: [cancelOrder] returns [true] exactly when the order exists with
    status [pending]; it then stores the order as [cancelled] with
    [cancelledAt] stamped, touching nothing else; in every other case it
    returns [false] and the engine is unchanged. *)
Theorem cancelOrder_only_when_pending (now : number) (orderId : string) (e : t) :
  let '(e', ok) := cancelOrder now orderId e in
  (ok = true <->
   exists order, JsMap.get orderId (orders e) = Some order
                 /\ Order.status order = pending)
  /\ (ok = true ->
      exists order',
        JsMap.get orderId (orders e') = Some order'
        /\ Order.status order' = cancelled
        /\ Order.cancelledAt order' = Some now
        /\ (forall other, other <> orderId ->
                          JsMap.get other (orders e') = JsMap.get other (orders e))
        /\ positions e' = positions e
        /\ trades e' = trades e
        /\ orderCounter e' = orderCounter e)
  /\ (ok = false -> e' = e).
Proof.
  unfold cancelOrder.
  destruct (JsMap.get orderId (orders e)) as [order|] eqn:Hget.
  - destruct (Order.status order) eqn:Hstatus;
      try (split; [ | split]; [ | discriminate | reflexivity];
           split; [discriminate | ];
           intros (o & Ho & Hpending); injection Ho as <-; congruence).
    split; [ | split]; [ | | discriminate].
    + split; [ | reflexivity]. intros _. now exists order.
    + intros _. eexists. split; [apply get_set_same | ].
      cbn [Order.assign Order.status Order.cancelledAt with_orders orders positions
           trades orderCounter].
      repeat split. intros other Hother. apply get_set_other. congruence.
  - split; [ | split]; [ | discriminate | reflexivity].
    split; [discriminate | ]. intros (o & Ho & _). discriminate.
Qed.

(** In a settled engine no order can be cancelled. *)
Lemma settled_cancelOrder (now : number) (orderId : string) (e : t) :
  settled e -> cancelOrder now orderId e = (e, false).
Proof.
  intros Hs. unfold cancelOrder.
  destruct (JsMap.get orderId (orders e)) as [order|] eqn:Hget; [ | reflexivity].
  destruct (Hs _ _ Hget) as [-> | ->]; reflexivity.
Qed.

(** [executeOrder] keeps an engine settled. *)
Lemma settled_executeOrder (d : Draws.t) (orderData : PartialOrder.t)
    (userBalance : xnumber) (currentPrice : number) (e : t) :
  settled e -> settled (fst (executeOrder d orderData userBalance currentPrice e)).
Proof.
  intros Hs.
  destruct (OrderValidationResult.isValid
              (validateOrder orderData userBalance currentPrice)) eqn:Hvalid.
  - destruct (executeOrder_stored d _ _ _ e Hvalid)
      as (id & placed & final & _ & Horders & _ & Hfinal).
    intros k o. rewrite Horders, get_set, get_set.
    destruct (String.eqb k id); [ | apply Hs].
    intros Ho; injection Ho as <-. exact Hfinal.
  - rewrite (executeOrder_invalid d _ _ _ e Hvalid). exact Hs.
Qed.

Lemma settled_step (c : call) (e : t) : settled e -> settled (step c e).
Proof.
  intros Hs. destruct c as [d od ub cp | now id | d pid cp]; cbn [step].
  - now apply settled_executeOrder.
  - now rewrite settled_cancelOrder.
  - unfold closePosition.
    destruct (Js.find _ _); [now apply settled_executeOrder | exact Hs].
Qed.

(** Every reachable engine is settled. *)
Lemma reachable_settled (e : t) : reachable e -> settled e.
Proof.
  induction 1 as [ | c e _ IH].
  - intros id o Hget. discriminate.
  - now apply settled_step.
Qed.

Lemma reachable_run (calls : list call) (e : t) : reachable e -> reachable (run calls e).
Proof.
  revert e. induction calls as [ | c calls IH]; intros e He; [exact He | ].
  apply IH. now constructor.
Qed.

(** C10: after any [executeOrder] call on a reachable engine, the order the
    call stored is [filled] or [rejected], no stored order is [pending], and
    [cancelOrder] returns [false] for every id, the new order's included. *)
Theorem executeOrder_leaves_no_pending_order (e : t) (d : Draws.t)
    (orderData : PartialOrder.t) (userBalance : xnumber) (currentPrice : number) :
  reachable e ->
  let '(e', result) := executeOrder d orderData userBalance currentPrice e in
  (forall id,
     OrderExecutionResult.orderId result = Some id ->
     exists stored,
       JsMap.get id (orders e') = Some stored
       /\ (Order.status stored = filled \/ Order.status stored = rejected))
  /\ (forall id stored,
        JsMap.get id (orders e') = Some stored -> Order.status stored <> pending)
  /\ (forall now id, cancelOrder now id e' = (e', false)).
Proof.
  intros Hreach.
  pose proof (settled_executeOrder d orderData userBalance currentPrice e
                (reachable_settled e Hreach)) as Hsettled.
  destruct (OrderValidationResult.isValid
              (validateOrder orderData userBalance currentPrice)) eqn:Hvalid.
  - destruct (executeOrder_stored d _ _ _ e Hvalid)
      as (id0 & placed & final & Hid & Horders & _ & Hfinal).
    destruct (executeOrder d orderData userBalance currentPrice e) as [e' result].
    cbn [fst snd] in *.
    split; [ | split].
    + intros id Hres. rewrite Hid in Hres; injection Hres as <-.
      exists final. split; [ | exact Hfinal]. rewrite Horders. apply get_set_same.
    + intros id stored Hget. destruct (Hsettled _ _ Hget) as [-> | ->]; discriminate.
    + intros now id. now apply settled_cancelOrder.
  - rewrite (executeOrder_invalid d _ _ _ e Hvalid) in *. cbn [fst] in Hsettled.
    split; [ | split].
    + intros id Hres. discriminate.
    + intros id stored Hget. destruct (Hsettled _ _ Hget) as [-> | ->]; discriminate.
    + intros now id. now apply settled_cancelOrder.
Qed.

End Lifecycle.

(** ** [updatePosition] *)

Section PositionUpdate.
Context {host : Host}.
Import TradingEngine Spec.

Lemma signedQuantity_sign_same (trade : Trade.t) (position : Position.t) :
  0 < Trade.quantity trade ->
  sameDirection trade position ->
  Js.eqb (Js.Math_sign (Position.size position)) (Js.Math_sign (signedQuantity trade))
  || Js.eqb (Position.size position) 0 = true.
Proof.
  intros Hq [[Hside Hsize] | [Hside Hsize]]; unfold signedQuantity; rewrite Hside.
  - now rewrite (Math_sign_pos _ Hsize), (Math_sign_pos _ Hq).
  - assert (Hneg : - Trade.quantity trade < 0) by lra.
    now rewrite (Math_sign_neg _ Hsize), (Math_sign_neg _ Hneg).
Qed.

Lemma signedQuantity_sign_opposite (trade : Trade.t) (position : Position.t) :
  0 < Trade.quantity trade ->
  oppositeDirection trade position ->
  Js.eqb (Js.Math_sign (Position.size position)) (Js.Math_sign (signedQuantity trade))
  || Js.eqb (Position.size position) 0 = false.
Proof.
  intros Hq [[Hside Hsize] | [Hside Hsize]]; unfold signedQuantity; rewrite Hside.
  - rewrite (Math_sign_neg _ Hsize), (Math_sign_pos _ Hq). apply orb_false_iff.
    split; [reflexivity | ]. apply not_true_iff_false. rewrite eqb_eq. lra.
  - assert (Hneg : - Trade.quantity trade < 0) by lra.
    rewrite (Math_sign_pos _ Hsize), (Math_sign_neg _ Hneg). apply orb_false_iff.
    split; [reflexivity | ]. apply not_true_iff_false. rewrite eqb_eq. lra.
Qed.

(** C2: a fill in the direction of the position stored under its key sets
    the entry price to the volume-weighted average, adds the signed quantity
    to the size and adds [quantity * price / leverage] to the margin; a long
    of 10 at 100 followed by a buy of 10 at 120 has entry price 110 and size
    20. *)
Theorem same_direction_fill_averages_entry :
  (forall (d : Draws.t) (trade : Trade.t) (e : t) (position : Position.t)
          (leverage : number),
     JsMap.get (positionKey trade) (positions e) = Some position ->
     0 < Trade.quantity trade ->
     Trade.leverage trade = Some leverage ->
     ~ leverage == 0 ->
     sameDirection trade position ->
     exists position',
       JsMap.get (positionKey trade) (positions (updatePosition d trade e))
       = Some position'
       /\ Position.entryPrice position'
          == (Qabs (Position.size position) * Position.entryPrice position
              + Trade.quantity trade * Trade.price trade)
             / (Qabs (Position.size position) + Trade.quantity trade)
       /\ Position.size position'
          == Position.size position
             + match Trade.side trade with
               | buy => Trade.quantity trade
               | sell => - Trade.quantity trade
               end
       /\ Position.margin position'
          == Position.margin position
             + Trade.quantity trade * Trade.price trade / leverage)
  /\ (forall (d1 d2 : Draws.t) (symbol : string) (leverage : option number) (e : t),
        JsMap.get (positionKey (fill symbol buy 10 100 leverage)) (positions e) = None ->
        exists position,
          JsMap.get (positionKey (fill symbol buy 10 120 leverage))
            (positions (updatePosition d2 (fill symbol buy 10 120 leverage)
                          (updatePosition d1 (fill symbol buy 10 100 leverage) e)))
          = Some position
          /\ Position.entryPrice position == 110
          /\ Position.size position == 20).
Proof.
  split.
  - intros d trade e position leverage Hget Hq Hlev Hlev0 Hdir.
    unfold updatePosition. rewrite Hget.
    rewrite (signedQuantity_sign_same _ _ Hq Hdir).
    cbn [with_positions positions]. rewrite get_set_same.
    eexists. split; [reflexivity | ].
    cbn [Position.assign Position.entryPrice Position.size Position.margin].
    rewrite Hlev, (or_else_truthy _ _ Hlev0).
    unfold Js.Math_abs, signedQuantity. repeat split; reflexivity.
  - intros d1 d2 symbol leverage e Hnone.
    unfold updatePosition at 2. rewrite Hnone.
    unfold updatePosition. cbn [with_positions positions].
    change (positionKey (fill symbol buy 10 120 leverage))
      with (positionKey (fill symbol buy 10 100 leverage)).
    rewrite get_set_same.
    cbn [Position.size signedQuantity fill Trade.side Trade.quantity Trade.price].
    change (Js.eqb (Js.Math_sign 10) (Js.Math_sign 10) || Js.eqb 10 0) with true.
    cbn iota. rewrite get_set_same.
    eexists. split; [reflexivity | ].
    cbn [Position.assign Position.entryPrice Position.size].
    split; reflexivity.
Qed.

(** C3: a fill against the position stored under its key adds
    [pnlPerUnit * min(|size|, quantity) * leverage] to the realized P&L, sets
    the size to the signed sum, keeps the entry price, and recomputes the
    margin as [|newSize| * entryPrice / leverage] when the magnitude shrank;
    selling 5 at 130 from a long of 20 entered at 110 realizes
    [(130 - 110) * 5 * leverage], leaves size 15 and entry price 110. *)
Theorem opposite_direction_fill_realizes_pnl :
  (forall (d : Draws.t) (trade : Trade.t) (e : t) (position : Position.t),
     JsMap.get (positionKey trade) (positions e) = Some position ->
     0 < Trade.quantity trade ->
     oppositeDirection trade position ->
     exists position',
       JsMap.get (positionKey trade) (positions (updatePosition d trade e))
       = Some position'
       /\ Position.realizedPnl position'
          == Position.realizedPnl position
             + match Trade.side trade with
               | buy => Position.entryPrice position - Trade.price trade
               | sell => Trade.price trade - Position.entryPrice position
               end
               * Qmin (Qabs (Position.size position)) (Trade.quantity trade)
               * Position.leverage position
       /\ Position.size position'
          == Position.size position
             + match Trade.side trade with
               | buy => Trade.quantity trade
               | sell => - Trade.quantity trade
               end
       /\ Position.entryPrice position' = Position.entryPrice position
       /\ (Qabs (Position.size position') < Qabs (Position.size position) ->
           Position.margin position'
           == Qabs (Position.size position') * Position.entryPrice position
              / Position.leverage position))
  /\ (forall (d : Draws.t) (symbol : string) (leverage : option number) (e : t)
             (position : Position.t),
        JsMap.get (positionKey (fill symbol sell 5 130 leverage)) (positions e)
        = Some position ->
        Position.size position = 20 ->
        Position.entryPrice position = 110 ->
        exists position',
          JsMap.get (positionKey (fill symbol sell 5 130 leverage))
            (positions (updatePosition d (fill symbol sell 5 130 leverage) e))
          = Some position'
          /\ Position.realizedPnl position'
             == Position.realizedPnl position
                + (130 - 110) * 5 * Position.leverage position
          /\ Position.size position' == 15
          /\ Position.entryPrice position' == 110).
Proof.
  split.
  - intros d trade e position Hget Hq Hdir.
    unfold updatePosition. rewrite Hget.
    rewrite (signedQuantity_sign_opposite _ _ Hq Hdir).
    cbn [with_positions positions]. rewrite get_set_same.
    eexists. split; [reflexivity | ].
    cbn [Position.assign Position.entryPrice Position.size Position.margin
         Position.realizedPnl].
    split; [ | split; [ | split]].
    + rewrite Math_min_Qmin. reflexivity.
    + unfold signedQuantity. reflexivity.
    + reflexivity.
    + intros Hless. apply ltb_lt in Hless. unfold Js.Math_abs in *.
      rewrite Hless. reflexivity.
  - intros d symbol leverage e position Hget Hsize Hentry.
    unfold updatePosition. rewrite Hget.
    cbn [signedQuantity fill Trade.side Trade.quantity Trade.price].
    rewrite Hsize, Hentry.
    change (Js.eqb (Js.Math_sign 20) (Js.Math_sign (- 5)) || Js.eqb 20 0) with false.
    cbn iota. cbn [with_positions positions]. rewrite get_set_same.
    eexists. split; [reflexivity | ].
    cbn [Position.assign Position.entryPrice Position.size Position.realizedPnl].
    split; [ | split; reflexivity].
    change (Js.Math_min (Js.Math_abs 20) 5) with 5. reflexivity.
Qed.

End PositionUpdate.

(** ** The risk score *)

Section RiskScore.
Context {host : Host}.
Import RiskManager.

Lemma Math_min_le_compat_l (a b c : number) :
  a <= b -> Js.Math_min a c <= Js.Math_min b c.
Proof.
  intros Hab. rewrite !Math_min_Qmin. now apply Q.min_le_compat_r.
Qed.

Lemma Math_min_compat (a a' b b' : number) :
  a == a' -> b == b' -> Js.Math_min a b == Js.Math_min a' b'.
Proof.
  intros Ha Hb. rewrite !Math_min_Qmin. now rewrite Ha, Hb.
Qed.

Lemma ltb_compat (a a' b b' : number) :
  a == a' -> b == b' -> Js.ltb a b = Js.ltb a' b'.
Proof.
  intros Ha Hb. unfold Js.ltb. now rewrite Ha, Hb.
Qed.

(** The score depends on its arguments only up to [==]. *)
Lemma calculateRiskScore_compat (limits : RiskLimits.t)
    (u u' n n' r r' : number) :
  u == u' -> n == n' -> r == r' ->
  calculateRiskScore limits u n r == calculateRiskScore limits u' n' r'.
Proof.
  intros Hu Hn Hr. unfold calculateRiskScore.
  rewrite (ltb_compat r r' 0 0 Hr (Qeq_refl 0)).
  destruct (Js.ltb r' 0); apply Math_min_compat; try reflexivity.
  - apply Qplus_comp; [apply Qplus_comp | ].
    + now rewrite Hu.
    + apply Qmult_comp; [ | reflexivity]. apply Math_min_compat; [ | reflexivity].
      now rewrite Hn.
    + apply Qmult_comp; [ | reflexivity]. apply Math_min_compat; [ | reflexivity].
      unfold Js.Math_abs. now rewrite Hr.
  - apply Qplus_comp.
    + now rewrite Hu.
    + apply Qmult_comp; [ | reflexivity]. apply Math_min_compat; [ | reflexivity].
      now rewrite Hn.
Qed.

Lemma calculateRiskScore_monotone (limits : RiskLimits.t)
    (u1 u2 positionCount pnlRatio : number) :
  u1 <= u2 ->
  calculateRiskScore limits u1 positionCount pnlRatio
  <= calculateRiskScore limits u2 positionCount pnlRatio.
Proof.
  intros Hu. unfold calculateRiskScore.
  destruct (Js.ltb pnlRatio 0); apply Math_min_le_compat_l; lra.
Qed.

(** C9: with the position count and the P&L ratio fixed, a larger margin
    utilization never gives a smaller risk score, for the score function and
    for the score [calculateRiskMetrics] reports.  The limit
    [maxConcurrentPositions] is taken non-zero, so that the quotient in the
    score is a number. *)
Theorem riskScore_monotone_in_marginUtilization (limits : RiskLimits.t) :
  ~ RiskLimits.maxConcurrentPositions limits == 0 ->
  (forall u1 u2 positionCount pnlRatio : number,
     u1 <= u2 ->
     calculateRiskScore limits u1 positionCount pnlRatio
     <= calculateRiskScore limits u2 positionCount pnlRatio)
  /\ (forall (positions1 positions2 : list Position.t) (orders1 orders2 : list Order.t)
             (balance1 balance2 : number),
        let m1 := calculateRiskMetrics limits positions1 orders1 balance1 in
        let m2 := calculateRiskMetrics limits positions2 orders2 balance2 in
        List.length positions1 = List.length positions2 ->
        RiskMetrics.totalUnrealizedPnl m1 / balance1
        == RiskMetrics.totalUnrealizedPnl m2 / balance2 ->
        RiskMetrics.marginUtilization m1 <= RiskMetrics.marginUtilization m2 ->
        RiskMetrics.riskScore m1 <= RiskMetrics.riskScore m2).
Proof.
  intros _. split.
  - intros u1 u2 positionCount pnlRatio. apply calculateRiskScore_monotone.
  - intros positions1 positions2 orders1 orders2 balance1 balance2 m1 m2 Hlen Hpnl Hu.
    subst m1 m2. unfold calculateRiskMetrics in *.
    cbn [RiskMetrics.riskScore RiskMetrics.marginUtilization
         RiskMetrics.totalUnrealizedPnl] in *.
    unfold len. rewrite Hlen.
    eapply Qle_trans; [apply calculateRiskScore_monotone, Hu | ].
    apply Qle_lteq. right.
    apply calculateRiskScore_compat; [reflexivity | reflexivity | exact Hpnl].
Qed.

End RiskScore.

(** ** Closed instances *)

Section Instances.
#[local] Existing Instance exampleHost.
Import TradingEngine Spec.

Lemma non_marketable_limit_order_witness :
  let '(e', result) :=
    executeOrder (draws 1) (order "BTC" buy limit 1 (Some 90) None) (Fin 1000) 100 init in
  OrderExecutionResult.success result = true
  /\ OrderExecutionResult.executedQuantity result = Some 0
  /\ OrderExecutionResult.trade result = None
  /\ trades e' = trades init
  /\ positions e' = positions init
  /\ exists id stored,
       OrderExecutionResult.orderId result = Some id
       /\ JsMap.get id (orders e') = Some stored
       /\ Order.status stored = filled
       /\ Order.filledQuantity stored = Some 0.
Proof.
  apply (non_marketable_limit_order (draws 1) (order "BTC" buy limit 1 (Some 90) None)
           (Fin 1000) 100 init buy 90).
  - reflexivity.
  - reflexivity.
  - reflexivity.
  - reflexivity.
  - left. split; reflexivity.
Defined.

Lemma same_direction_fill_witness :
  exists position',
    JsMap.get "BTC-1"
      (positions (updatePosition (draws 2) (fill "BTC" buy 10 120 (Some 1))
                    (book "BTC-1" (holding "BTC" 10 100 1))))
    = Some position'
    /\ Position.entryPrice position' == 110
    /\ Position.size position' == 20
    /\ Position.margin position' == 2200.
Proof.
  destruct (proj1 same_direction_fill_averages_entry (draws 2)
              (fill "BTC" buy 10 120 (Some 1))
              (book "BTC-1" (holding "BTC" 10 100 1))
              (holding "BTC" 10 100 1) 1)
    as (position' & Hget & Hentry & Hsize & Hmargin).
  - reflexivity.
  - reflexivity.
  - reflexivity.
  - discriminate.
  - left. split; reflexivity.
  - exists position'. split; [exact Hget | ].
    split; [rewrite Hentry; reflexivity | ].
    split; [rewrite Hsize; reflexivity | rewrite Hmargin; reflexivity].
Defined.

Lemma opposite_direction_fill_witness :
  exists position',
    JsMap.get "BTC-2"
      (positions (updatePosition (draws 3) (fill "BTC" sell 5 130 (Some 2))
                    (book "BTC-2" (holding "BTC" 20 110 2))))
    = Some position'
    /\ Position.realizedPnl position' == (130 - 110) * 5 * 2
    /\ Position.size position' == 15
    /\ Position.entryPrice position' = 110
    /\ Position.margin position' == 15 * 110 / 2.
Proof.
  destruct (proj1 opposite_direction_fill_realizes_pnl (draws 3)
              (fill "BTC" sell 5 130 (Some 2))
              (book "BTC-2" (holding "BTC" 20 110 2))
              (holding "BTC" 20 110 2))
    as (position' & Hget & Hpnl & Hsize & Hentry & Hmargin).
  - reflexivity.
  - reflexivity.
  - right. split; reflexivity.
  - exists position'. split; [exact Hget | ].
    split; [rewrite Hpnl; reflexivity | ].
    split; [rewrite Hsize; reflexivity | ].
    split; [exact Hentry | ].
    assert (Hless : Qabs (Position.size position') < Qabs 20).
    { rewrite Hsize. reflexivity. }
    rewrite (Hmargin Hless), Hsize. reflexivity.
Defined.

(** C4 fails on the code: [updatePosition] writes [side] only when it creates
    the position.  After a market buy of 10 and a market sell of 15 on the
    same key the position is net short (size -5) and its [side] is still
    [buy]; [closePosition], which picks the closing side from [side], then
    sells 5 more and the short grows to 10. *)
Theorem side_is_stale_after_flip :
  let e :=
    run [ExecuteOrder (draws 1) (order "BTC" buy market 10 None None) (Fin 10000) 100;
         ExecuteOrder (draws 2) (order "BTC" sell market 15 None None) (Fin 10000) 100]
        init in
  reachable e
  /\ (exists position,
        JsMap.get "BTC-1" (positions e) = Some position
        /\ Position.size position == - (5)
        /\ Position.size position < 0
        /\ Position.side position = side_of buy)
  /\ (exists position,
        JsMap.get "BTC-1" (positions (fst (closePosition (draws 3) "pos-1" 100 e)))
        = Some position
        /\ Position.size position == - (10)
        /\ Position.side position = side_of buy).
Proof.
  split; [ | split].
  - apply reachable_run. constructor.
  - eexists. split; [vm_compute; reflexivity | ]. repeat split.
  - eexists. split; [vm_compute; reflexivity | ]. repeat split.
Qed.

(** C5 as stated fails: a market buy with quantity 1 and a price that is
    present but 0, against a balance of -1, has [quantity * price] above the
    balance, and [validateOrder] accepts it with no error. *)
Lemma zero_price_buy_passes_validation :
  let order := order "BTC" buy market 1 (Some 0) None in
  let userBalance := Fin (- (1)) in
  PartialOrder.side order = Some buy
  /\ PartialOrder.quantity order = Some 1
  /\ 0 < 1
  /\ PartialOrder.price order = Some 0
  /\ exceeds (1 * 0) userBalance
  /\ OrderValidationResult.isValid (validateOrder order userBalance 100) = true
  /\ OrderValidationResult.errors (validateOrder order userBalance 100) = [].
Proof. repeat split. Qed.

Lemma balance_gate_buy_only_witness :
  let asBuy := validateOrder (order "BTC" buy limit 2 (Some 100) None) (Fin 150) 100 in
  let asSell :=
    validateOrder (withSide (order "BTC" buy limit 2 (Some 100) None) sell) (Fin 150) 100 in
  OrderValidationResult.isValid asBuy = false
  /\ Exists (fun message => isInsufficientBalanceError message = true)
            (OrderValidationResult.errors asBuy)
  /\ Forall (fun message => isInsufficientBalanceError message = false)
            (OrderValidationResult.errors asSell).
Proof.
  apply (balance_gate_buy_only (order "BTC" buy limit 2 (Some 100) None) (Fin 150)
           100 2 100).
  - reflexivity.
  - reflexivity.
  - reflexivity.
  - reflexivity.
  - discriminate.
  - reflexivity.
Defined.

Lemma executeOrder_invalid_witness :
  let '(e', result) :=
    executeOrder (draws 1) (order "BTC" buy limit 1 (Some 5) None) (Fin 1000) 5 init in
  OrderExecutionResult.success result = false
  /\ OrderExecutionResult.error result
     = Some (Js.join ", " (OrderValidationResult.errors
                              (validateOrder (order "BTC" buy limit 1 (Some 5) None)
                                 (Fin 1000) 5)))
  /\ OrderExecutionResult.orderId result = None
  /\ OrderExecutionResult.trade result = None
  /\ orders e' = orders init
  /\ positions e' = positions init
  /\ trades e' = trades init
  /\ e' = init.
Proof.
  apply (executeOrder_invalid_stores_nothing (draws 1)
           (order "BTC" buy limit 1 (Some 5) None) (Fin 1000) 5 init).
  reflexivity.
Defined.

Lemma market_order_slippage_witness :
  let s := Draws.random_slippage (draws 1) * (1 # 1000) in
  let result :=
    snd (executeOrder (draws 1) (order "BTC" buy market 1 None None) (Fin 1000) 100 init) in
  0 <= s
  /\ s < 1 # 1000
  /\ exists executedPrice trade,
       OrderExecutionResult.executedPrice result = Some executedPrice
       /\ OrderExecutionResult.trade result = Some trade
       /\ Trade.price trade = executedPrice
       /\ executedPrice == 100 * (1 + s)
       /\ (100 == 100 -> 100 <= executedPrice /\ executedPrice <= 1001 # 10).
Proof.
  apply (market_order_slippage (draws 1) (order "BTC" buy market 1 None None)
           (Fin 1000) 100 init buy).
  - reflexivity.
  - reflexivity.
  - reflexivity.
  - reflexivity.
  - discriminate.
  - reflexivity.
Defined.

Lemma riskScore_monotone_witness :
  RiskManager.calculateRiskScore RiskManager.defaultLimits (2 # 10) 3 0
  <= RiskManager.calculateRiskScore RiskManager.defaultLimits (5 # 10) 3 0.
Proof.
  apply (proj1 (riskScore_monotone_in_marginUtilization RiskManager.defaultLimits
                  ltac:(discriminate))).
  discriminate.
Defined.

Lemma executeOrder_leaves_no_pending_order_witness :
  let '(e', result) :=
    executeOrder (draws 1) (order "BTC" buy limit 1 (Some 90) None) (Fin 1000) 100 init in
  (forall id,
     OrderExecutionResult.orderId result = Some id ->
     exists stored,
       JsMap.get id (orders e') = Some stored
       /\ (Order.status stored = filled \/ Order.status stored = rejected))
  /\ (forall id stored,
        JsMap.get id (orders e') = Some stored -> Order.status stored <> pending)
  /\ (forall now id, cancelOrder now id e' = (e', false)).
Proof.
  apply (executeOrder_leaves_no_pending_order init (draws 1)
           (order "BTC" buy limit 1 (Some 90) None) (Fin 1000) 100).
  constructor.
Defined.

End Instances.

(** * Further properties of the engine *)

(** ** More on [validateOrder] *)

Section ValidationMore.
Context {host : Host}.
Import TradingEngine Spec Notions.

Lemma not_zero_lt (q : number) : 0 < q -> ~ q == 0.
Proof. intros H E. rewrite E in H. now apply Qlt_irrefl in H. Qed.

(** X1: the minimum order size: a notional below 10 is an error whatever the
    balance, the side and the type. *)
Theorem validateOrder_minimum_notional (order : PartialOrder.t) (userBalance : xnumber)
    (currentPrice quantity price : number) :
  PartialOrder.quantity order = Some quantity ->
  PartialOrder.price order = Some price ->
  ~ quantity == 0 ->
  ~ price == 0 ->
  quantity * price < 10 ->
  let validation := validateOrder order userBalance currentPrice in
  OrderValidationResult.isValid validation = false
  /\ In ("Order size must be at least $" ++ toString 10)
        (OrderValidationResult.errors validation).
Proof.
  intros Hq Hp Hq0 Hp0 Hlt validation.
  apply truthy_Some in Hq0. apply truthy_Some in Hp0. apply ltb_lt in Hlt.
  split.
  - subst validation. rewrite isValid_rejects. unfold rejects, belowMinimum.
    rewrite Hq, Hp, Hq0, Hp0, Hlt. cbn [andb]. now rewrite orb_true_r.
  - subst validation. unfold validateOrder; cbv zeta; cbn [OrderValidationResult.errors].
    rewrite Hq, Hp, Hq0, Hp0, Hlt. cbn [andb].
    apply in_or_app. right. now left.
Qed.

Lemma gtb_xle (a : number) (b b' : xnumber) :
  xle b b' -> X.gtb a b' = true -> X.gtb a b = true.
Proof.
  destruct b as [x|], b' as [y|]; simpl; try discriminate; try contradiction.
  intros Hle Hgt. apply gtb_gt in Hgt. apply gtb_gt. lra.
Qed.

(** X2: a larger balance never invalidates an order. *)
Theorem validateOrder_balance_monotone (order : PartialOrder.t)
    (userBalance userBalance' : xnumber) (currentPrice : number) :
  xle userBalance userBalance' ->
  OrderValidationResult.isValid (validateOrder order userBalance currentPrice) = true ->
  OrderValidationResult.isValid (validateOrder order userBalance' currentPrice) = true.
Proof.
  intros Hle. rewrite !isValid_rejects, !negb_true_iff. unfold rejects.
  intros H.
  apply orb_false_iff in H; destruct H as [H Hmin].
  apply orb_false_iff in H; destruct H as [H Hbal].
  rewrite H, Hmin. cbn [orb]. rewrite orb_false_r.
  unfold insufficientBalance in *.
  destruct (PartialOrder.side order) as [[|]|]; try reflexivity.
  destruct (PartialOrder.quantity order) as [q|]; try reflexivity.
  destruct (PartialOrder.price order) as [p|]; try reflexivity.
  destruct (Js.truthy (Some q) && Js.truthy (Some p)); [ | reflexivity].
  cbn [andb] in *. apply not_true_iff_false. intros Hgt.
  rewrite (gtb_xle _ _ _ Hle Hgt) in Hbal. discriminate.
Qed.

(** X3: a market order that names no price is never checked against the balance
    or the minimum size: it is valid exactly when it has a non-empty symbol,
    a side and a positive quantity. *)
Theorem validateOrder_market_without_price (order : PartialOrder.t)
    (userBalance : xnumber) (currentPrice : number) :
  PartialOrder.type order = Some market ->
  PartialOrder.price order = None ->
  (OrderValidationResult.isValid (validateOrder order userBalance currentPrice) = true
   <-> Js.truthy_string (PartialOrder.symbol order) = true
       /\ (exists side, PartialOrder.side order = Some side)
       /\ (exists quantity, PartialOrder.quantity order = Some quantity /\ 0 < quantity)).
Proof.
  intros Hty Hp. rewrite isValid_rejects, negb_true_iff. unfold rejects.
  unfold insufficientBalance, belowMinimum. rewrite Hty, Hp.
  cbn [is_type Js.present negb andb].
  assert (Hbal : match PartialOrder.side order with
                 | Some buy =>
                     match PartialOrder.quantity order with
                     | Some _ | _ => false
                     end
                 | _ => false
                 end = false).
  { destruct (PartialOrder.side order) as [[|]|]; try reflexivity.
    destruct (PartialOrder.quantity order); reflexivity. }
  assert (Hmin : match PartialOrder.quantity order with
                 | Some _ | _ => false
                 end = false).
  { destruct (PartialOrder.quantity order); reflexivity. }
  rewrite Hbal, Hmin, !orb_false_r.
  destruct (Js.truthy_string (PartialOrder.symbol order)); cbn [negb orb].
  2:{ split; [discriminate | intros (H & _); discriminate]. }
  destruct (PartialOrder.side order) as [sd|]; cbn [Js.present negb orb].
  2:{ split; [discriminate | intros (_ & (sd & H) & _); discriminate]. }
  destruct (PartialOrder.quantity order) as [q|]; cbn [Js.truthy test negb].
  2:{ split; [discriminate | intros (_ & _ & (q & H & _)); discriminate]. }
  rewrite negb_involutive. split.
  - intros H. apply orb_false_iff in H. destruct H as [_ H]. apply leb_gt in H.
    split; [reflexivity | ]. split; [now exists sd | ]. now exists q.
  - intros (_ & _ & (q' & Hq' & Hpos)). injection Hq' as <-.
    apply orb_false_iff. split; [ | now apply leb_gt].
    apply not_true_iff_false. rewrite Qeq_bool_iff. now apply not_zero_lt.
Qed.

End ValidationMore.

(** ** More on [executeOrder] *)

Section ExecutionMore.
Context {host : Host}.
Import TradingEngine Spec Notions.

Ltac reduce_execution :=
  cbn [negb generateOrderId executeMarketOrder queued fst snd
       OrderExecutionResult.success OrderExecutionResult.orderId
       OrderExecutionResult.executedPrice OrderExecutionResult.executedQuantity
       OrderExecutionResult.error OrderExecutionResult.trade
       orders positions trades orderCounter
       with_orders with_positions with_trades updatePosition
       Order.price Order.side Order.quantity Order.id Order.leverage].

(** X4: a valid market order fills in full: one trade for the whole quantity is
    appended, carrying the order id and a fee of 0.1% of its notional, and the
    order is stored as [filled] at the executed price; the counter advances
    by one. *)
Theorem market_order_fills_in_full (d : Draws.t) (orderData : PartialOrder.t)
    (userBalance : xnumber) (currentPrice : number) (e : t) (quantity : number) :
  OrderValidationResult.isValid (validateOrder orderData userBalance currentPrice)
  = true ->
  PartialOrder.type orderData = Some market ->
  PartialOrder.quantity orderData = Some quantity ->
  let '(e', result) := executeOrder d orderData userBalance currentPrice e in
  OrderExecutionResult.success result = true
  /\ OrderExecutionResult.executedQuantity result = Some quantity
  /\ orderCounter e' = orderCounter e + 1
  /\ exists id trade stored,
       OrderExecutionResult.orderId result = Some id
       /\ OrderExecutionResult.trade result = Some trade
       /\ OrderExecutionResult.executedPrice result = Some (Trade.price trade)
       /\ trades e' = (trades e ++ [trade])%list
       /\ Trade.orderId trade = Some id
       /\ Trade.quantity trade = quantity
       /\ Trade.fee trade == quantity * Trade.price trade * (1 # 1000)
       /\ getOrder id e' = Some stored
       /\ Order.status stored = filled
       /\ Order.filledQuantity stored = Some quantity
       /\ Order.averagePrice stored = Some (Trade.price trade).
Proof.
  intros Hvalid Htype Hquantity.
  destruct (validateOrder_fields _ _ _ Hvalid)
    as (sym & sd & ty & q & Hsym & Hsd & Hty & Hq & Hqpos & _).
  rewrite Htype in Hty; injection Hty as <-.
  rewrite Hquantity in Hq; injection Hq as <-.
  unfold executeOrder. rewrite Hvalid, Hsym, Hsd, Htype, Hquantity.
  reduce_execution.
  split; [reflexivity | ]. split; [reflexivity | ]. split; [reflexivity | ].
  eexists. eexists. eexists.
  split; [reflexivity | ]. split; [reflexivity | ]. split; [reflexivity | ].
  split; [reflexivity | ]. split; [reflexivity | ]. split; [reflexivity | ].
  split; [reflexivity | ].
  split; [unfold getOrder; cbn [orders]; apply get_set_same | ].
  repeat split.
Qed.

(** X5: a valid limit order whose price crosses the current price fills in full
    at its limit price, without slippage. *)
Theorem marketable_limit_order_fills_at_limit (d : Draws.t) (orderData : PartialOrder.t)
    (userBalance : xnumber) (currentPrice : number) (e : t)
    (side : Side) (quantity price : number) :
  OrderValidationResult.isValid (validateOrder orderData userBalance currentPrice)
  = true ->
  PartialOrder.type orderData = Some limit ->
  PartialOrder.side orderData = Some side ->
  PartialOrder.quantity orderData = Some quantity ->
  PartialOrder.price orderData = Some price ->
  marketable side price currentPrice ->
  let '(e', result) := executeOrder d orderData userBalance currentPrice e in
  OrderExecutionResult.success result = true
  /\ OrderExecutionResult.executedPrice result = Some price
  /\ OrderExecutionResult.executedQuantity result = Some quantity
  /\ exists id trade stored,
       OrderExecutionResult.orderId result = Some id
       /\ OrderExecutionResult.trade result = Some trade
       /\ trades e' = (trades e ++ [trade])%list
       /\ Trade.price trade = price
       /\ Trade.quantity trade = quantity
       /\ Trade.side trade = side
       /\ getOrder id e' = Some stored
       /\ Order.status stored = filled
       /\ Order.filledQuantity stored = Some quantity
       /\ Order.averagePrice stored = Some price.
Proof.
  intros Hvalid Htype Hside Hquantity Hprice Hm.
  destruct (validateOrder_fields _ _ _ Hvalid)
    as (sym & sd & ty & q & Hsym & Hsd & Hty & Hq & Hqpos & Hlimit).
  rewrite Htype in Hty; injection Hty as <-.
  rewrite Hside in Hsd; injection Hsd as <-.
  rewrite Hquantity in Hq; injection Hq as <-.
  destruct (Hlimit eq_refl) as (p & Hp & Hppos).
  rewrite Hprice in Hp; injection Hp as <-.
  unfold executeOrder. rewrite Hvalid, Hsym, Hside, Htype, Hquantity, Hprice.
  cbn [negb generateOrderId]. unfold executeLimitOrder. cbn [Order.price Order.side].
  rewrite (or_else_truthy _ _ (not_zero_lt _ Hppos)).
  assert (Hyes : (Side_eqb side buy && Js.geb price currentPrice)
                 || (Side_eqb side sell && Js.leb price currentPrice) = true).
  { destruct Hm as [[-> Hle] | [-> Hle]]; cbn [Side_eqb andb orb].
    - rewrite orb_false_r. now apply geb_ge.
    - now apply leb_le. }
  rewrite Hyes. reduce_execution.
  split; [reflexivity | ]. split; [reflexivity | ]. split; [reflexivity | ].
  eexists. eexists. eexists.
  split; [reflexivity | ]. split; [reflexivity | ]. split; [reflexivity | ].
  split; [reflexivity | ]. split; [reflexivity | ]. split; [reflexivity | ].
  split; [unfold getOrder; cbn [orders]; apply get_set_same | ].
  repeat split.
Qed.

(** X6: the stored order repeats the request and fills in the defaults: the
    current price for a missing price, leverage 1 for a missing leverage and
    [GTC] for a missing time in force. *)
Theorem executeOrder_stores_request_with_defaults (d : Draws.t)
    (orderData : PartialOrder.t) (userBalance : xnumber) (currentPrice : number)
    (e : t) :
  OrderValidationResult.isValid (validateOrder orderData userBalance currentPrice)
  = true ->
  let e' := fst (executeOrder d orderData userBalance currentPrice e) in
  let result := snd (executeOrder d orderData userBalance currentPrice e) in
  exists id stored,
    OrderExecutionResult.orderId result = Some id
    /\ getOrder id e' = Some stored
    /\ Order.id stored = id
    /\ PartialOrder.symbol orderData = Some (Order.symbol stored)
    /\ PartialOrder.side orderData = Some (Order.side stored)
    /\ PartialOrder.type orderData = Some (Order.type stored)
    /\ PartialOrder.quantity orderData = Some (Order.quantity stored)
    /\ Order.stopLoss stored = PartialOrder.stopLoss orderData
    /\ Order.takeProfit stored = PartialOrder.takeProfit orderData
    /\ (PartialOrder.price orderData = None -> Order.price stored = Some currentPrice)
    /\ (forall price, PartialOrder.price orderData = Some price -> ~ price == 0 ->
                      Order.price stored = Some price)
    /\ (PartialOrder.leverage orderData = None -> Order.leverage stored = Some 1)
    /\ (forall leverage, PartialOrder.leverage orderData = Some leverage ->
                         ~ leverage == 0 -> Order.leverage stored = Some leverage)
    /\ (PartialOrder.timeInForce orderData = None -> Order.timeInForce stored = Some GTC)
    /\ (forall tif, PartialOrder.timeInForce orderData = Some tif ->
                    Order.timeInForce stored = Some tif).
Proof.
  intros Hvalid e' result. subst e' result.
  destruct (validateOrder_fields _ _ _ Hvalid)
    as (sym & sd & ty & q & Hsym & Hsd & Hty & Hq & Hqpos & _).
  unfold executeOrder. rewrite Hvalid, Hsym, Hsd, Hty, Hq.
  cbn [negb generateOrderId].
  assert (Hdefaults :
            (PartialOrder.price orderData = None ->
             Some (Js.or_else (PartialOrder.price orderData) currentPrice)
             = Some currentPrice)
            /\ (forall price, PartialOrder.price orderData = Some price ->
                              ~ price == 0 ->
                              Some (Js.or_else (PartialOrder.price orderData) currentPrice)
                              = Some price)
            /\ (PartialOrder.leverage orderData = None ->
                Some (Js.or_else (PartialOrder.leverage orderData) 1) = Some 1)
            /\ (forall leverage, PartialOrder.leverage orderData = Some leverage ->
                                 ~ leverage == 0 ->
                                 Some (Js.or_else (PartialOrder.leverage orderData) 1)
                                 = Some leverage)).
  { repeat split.
    - intros ->. reflexivity.
    - intros price -> Hp0. now rewrite (or_else_truthy _ _ Hp0).
    - intros ->. reflexivity.
    - intros leverage -> Hl0. now rewrite (or_else_truthy _ _ Hl0). }
  destruct Hdefaults as (Hd1 & Hd2 & Hd3 & Hd4).
  assert (Htif : (PartialOrder.timeInForce orderData = None ->
                  Some match PartialOrder.timeInForce orderData with
                       | Some tif => tif
                       | None => GTC
                       end = Some GTC)
                 /\ (forall tif, PartialOrder.timeInForce orderData = Some tif ->
                                 Some match PartialOrder.timeInForce orderData with
                                      | Some tif => tif
                                      | None => GTC
                                      end = Some tif)).
  { split; [intros -> | intros tif ->]; reflexivity. }
  destruct Htif as (Ht1 & Ht2).
  destruct ty.
  - reduce_execution. unfold getOrder. cbn [orders].
    eexists. eexists. split; [reflexivity | ]. split; [apply get_set_same | ].
    cbn [Order.assign Order.id Order.symbol Order.side Order.type Order.quantity
         Order.stopLoss Order.takeProfit Order.price Order.leverage Order.timeInForce].
    repeat split; assumption.
  - unfold executeLimitOrder. cbn [Order.price].
    match goal with |- context [if negb ?c then _ else _] => destruct c end;
      reduce_execution; unfold getOrder; cbn [orders];
      (eexists; eexists; split; [reflexivity | ]; split; [apply get_set_same | ];
       cbn [Order.assign Order.id Order.symbol Order.side Order.type Order.quantity
            Order.stopLoss Order.takeProfit Order.price Order.leverage
            Order.timeInForce];
       repeat split; assumption).
Qed.

End ExecutionMore.

(** ** What the calls keep *)

Section Ledger.
Context {host : Host}.
Import TradingEngine Spec Notions.

(** A valid order is stored as [filled]: both ways of executing report
    success. *)
Lemma executeOrder_stores_filled (d : Draws.t) (orderData : PartialOrder.t)
    (userBalance : xnumber) (currentPrice : number) (e : t) :
  OrderValidationResult.isValid (validateOrder orderData userBalance currentPrice)
  = true ->
  exists id placed final,
    orders (fst (executeOrder d orderData userBalance currentPrice e))
    = JsMap.set id final (JsMap.set id placed (orders e))
    /\ Order.status final = filled.
Proof.
  intros Hvalid.
  destruct (validateOrder_fields _ _ _ Hvalid)
    as (sym & sd & ty & q & Hsym & Hsd & Hty & Hq & Hqpos & _).
  unfold executeOrder. rewrite Hvalid, Hsym, Hsd, Hty, Hq.
  cbn [negb generateOrderId].
  destruct ty.
  - cbn [executeMarketOrder fst snd OrderExecutionResult.success orders with_orders
         updatePosition with_positions with_trades].
    eexists. eexists. eexists. split; reflexivity.
  - unfold executeLimitOrder. cbn [Order.price].
    match goal with |- context [if negb ?c then _ else _] => destruct c end;
      cbn [negb queued fst snd OrderExecutionResult.success orders with_orders
           updatePosition with_positions with_trades];
      (eexists; eexists; eexists; split; reflexivity).
Qed.

(** The trades and positions after [executeOrder]: nothing changed, or one
    trade was appended and its key was set. *)
Lemma executeOrder_ledger (d : Draws.t) (orderData : PartialOrder.t)
    (userBalance : xnumber) (currentPrice : number) (e : t) :
  let e' := fst (executeOrder d orderData userBalance currentPrice e) in
  (trades e' = trades e /\ positions e' = positions e)
  \/ (exists trade position,
        trades e' = (trades e ++ [trade])%list
        /\ positions e' = JsMap.set (positionKey trade) position (positions e)
        /\ PartialOrder.symbol orderData = Some (Trade.symbol trade)
        /\ Trade.leverage trade
           = Some (Js.or_else (PartialOrder.leverage orderData) 1)).
Proof.
  intros e'. subst e'.
  destruct (OrderValidationResult.isValid
              (validateOrder orderData userBalance currentPrice)) eqn:Hvalid.
  - destruct (validateOrder_fields _ _ _ Hvalid)
      as (sym & sd & ty & q & Hsym & Hsd & Hty & Hq & Hqpos & _).
    unfold executeOrder. rewrite Hvalid, Hsym, Hsd, Hty, Hq.
    cbn [negb generateOrderId].
    destruct ty.
    + right.
      cbn [executeMarketOrder fst snd OrderExecutionResult.success orders positions
           trades with_orders updatePosition with_positions with_trades].
      eexists. eexists. split; [reflexivity | ]. split; [reflexivity | ].
      split; reflexivity.
    + unfold executeLimitOrder. cbn [Order.price].
      match goal with |- context [if negb ?c then _ else _] => destruct c end;
        cbn [negb queued fst snd OrderExecutionResult.success orders positions
             trades with_orders updatePosition with_positions with_trades].
      * right. eexists. eexists. split; [reflexivity | ]. split; [reflexivity | ].
        split; reflexivity.
      * left. split; reflexivity.
  - rewrite (executeOrder_invalid d _ _ _ e Hvalid). left. split; reflexivity.
Qed.

Lemma step_trades (c : call) (e : t) :
  exists suffix,
    trades (step c e) = (trades e ++ suffix)%list /\ (List.length suffix <= 1)%nat.
Proof.
  assert (Hexec : forall d od ub cp,
            exists suffix,
              trades (fst (executeOrder d od ub cp e)) = (trades e ++ suffix)%list
              /\ (List.length suffix <= 1)%nat).
  { intros d od ub cp.
    destruct (executeOrder_ledger d od ub cp e)
      as [[Ht _] | (trade & position & Ht & _)].
    - exists []. rewrite Ht, app_nil_r. split; [reflexivity | simpl; lia].
    - exists [trade]. split; [exact Ht | simpl; lia]. }
  destruct c as [d od ub cp | now id | d pid cp]; cbn [step].
  - apply Hexec.
  - exists []. rewrite app_nil_r. split; [ | simpl; lia].
    unfold cancelOrder. destruct (JsMap.get id (orders e)) as [o|]; [ | reflexivity].
    destruct (Order.status o); reflexivity.
  - unfold closePosition. destruct (Js.find _ _); [apply Hexec | ].
    exists []. rewrite app_nil_r. split; [reflexivity | simpl; lia].
Qed.

(** X7: the trade list is append-only: any sequence of calls leaves the trades
    it found in place and adds at most one trade per call after them. *)
Theorem trades_append_only (calls : list call) (e : t) :
  exists suffix,
    trades (run calls e) = (trades e ++ suffix)%list
    /\ (List.length suffix <= List.length calls)%nat.
Proof.
  revert e. induction calls as [ | c calls IH]; intros e.
  - exists []. rewrite app_nil_r. split; [reflexivity | simpl; lia].
  - cbn [run fold_left]. fold (run calls (step c e)).
    destruct (IH (step c e)) as (rest & Hrest & Hlen).
    destruct (step_trades c e) as (first & Hfirst & Hone).
    exists (first ++ rest)%list. rewrite Hrest, Hfirst, app_assoc.
    split; [reflexivity | ]. rewrite length_app. simpl. lia.
Qed.

Lemma allFilled_step (c : call) (e : t) : allFilled e -> allFilled (step c e).
Proof.
  intros Hall.
  assert (Hexec : forall d od ub cp, allFilled (fst (executeOrder d od ub cp e))).
  { intros d od ub cp.
    destruct (OrderValidationResult.isValid (validateOrder od ub cp)) eqn:Hvalid.
    - destruct (executeOrder_stores_filled d _ _ _ e Hvalid)
        as (id & placed & final & Horders & Hfinal).
      intros k o. rewrite Horders, get_set, get_set.
      destruct (String.eqb k id); [ | apply Hall].
      intros Ho; injection Ho as <-. exact Hfinal.
    - rewrite (executeOrder_invalid d _ _ _ e Hvalid). exact Hall. }
  destruct c as [d od ub cp | now id | d pid cp]; cbn [step].
  - apply Hexec.
  - unfold cancelOrder. destruct (JsMap.get id (orders e)) as [o|] eqn:Hget;
      [ | exact Hall].
    rewrite (Hall _ _ Hget). exact Hall.
  - unfold closePosition. destruct (Js.find _ _); [apply Hexec | exact Hall].
Qed.

(** X8: in an engine driven through its methods every stored order is [filled]:
    the [rejected] branch of [executeOrder] is never taken and [cancelOrder]
    never finds an order to cancel. *)
Theorem reachable_orders_all_filled (e : t) : reachable e -> allFilled e.
Proof.
  induction 1 as [ | c e _ IH].
  - intros id o Hget. discriminate.
  - now apply allFilled_step.
Qed.

Lemma get_set_keeps {V : Type} (k k' : string) (v v' : V) (m : JsMap.t V) :
  JsMap.get k m = Some v -> exists w, JsMap.get k (JsMap.set k' v' m) = Some w.
Proof.
  intros Hget. rewrite get_set. destruct (String.eqb k k'); [now exists v' | now exists v].
Qed.

(** X9: no call removes an order or a position: an id or a key that is stored
    stays stored. *)
Theorem step_keeps_orders_and_positions (c : call) (e : t) :
  (forall id o, JsMap.get id (orders e) = Some o ->
                exists o', JsMap.get id (orders (step c e)) = Some o')
  /\ (forall key p, JsMap.get key (positions e) = Some p ->
                    exists p', JsMap.get key (positions (step c e)) = Some p').
Proof.
  assert (Hexec : forall d od ub cp,
            (forall id o, JsMap.get id (orders e) = Some o ->
               exists o', JsMap.get id (orders (fst (executeOrder d od ub cp e)))
                          = Some o')
            /\ (forall key p, JsMap.get key (positions e) = Some p ->
                  exists p', JsMap.get key (positions (fst (executeOrder d od ub cp e)))
                             = Some p')).
  { intros d od ub cp. split.
    - intros id o Hget.
      destruct (OrderValidationResult.isValid (validateOrder od ub cp)) eqn:Hvalid.
      + destruct (executeOrder_stores_filled d _ _ _ e Hvalid)
          as (id0 & placed & final & Horders & _).
        rewrite Horders.
        destruct (get_set_keeps id id0 o placed _ Hget) as (w & Hw).
        apply (get_set_keeps id id0 w final _ Hw).
      + rewrite (executeOrder_invalid d _ _ _ e Hvalid). now exists o.
    - intros key p Hget.
      destruct (executeOrder_ledger d od ub cp e)
        as [[_ Hp] | (trade & position & _ & Hp & _)]; rewrite Hp.
      + now exists p.
      + apply (get_set_keeps _ _ p position _ Hget). }
  destruct c as [d od ub cp | now id | d pid cp]; cbn [step].
  - apply Hexec.
  - unfold cancelOrder. destruct (JsMap.get id (orders e)) as [o|] eqn:Hcancel.
    + destruct (Order.status o); cbn [fst orders positions with_orders];
        (split; [intros id' o' Hget | intros key p Hget]);
        try (now eexists; eassumption).
      apply (get_set_keeps _ _ o' _ _ Hget).
    + split; [intros id' o' Hget | intros key p Hget]; now eexists; eassumption.
  - unfold closePosition. destruct (Js.find _ _); [apply Hexec | ].
    split; [intros id' o' Hget | intros key p Hget]; now eexists; eassumption.
Qed.

(** X10: an order touches no position but the one under its own key, the symbol
    and the leverage (1 when missing) joined by a dash. *)
Theorem executeOrder_touches_one_key (d : Draws.t) (orderData : PartialOrder.t)
    (userBalance : xnumber) (currentPrice : number) (e : t) (symbol key : string) :
  PartialOrder.symbol orderData = Some symbol ->
  key <> symbol ++ "-" ++ toString (Js.or_else (PartialOrder.leverage orderData) 1) ->
  JsMap.get key (positions (fst (executeOrder d orderData userBalance currentPrice e)))
  = JsMap.get key (positions e).
Proof.
  intros Hsym Hkey.
  destruct (executeOrder_ledger d orderData userBalance currentPrice e)
    as [[_ Hp] | (trade & position & _ & Hp & Hs & Hl)]; rewrite Hp; [reflexivity | ].
  apply get_set_other. unfold positionKey. rewrite Hl.
  rewrite Hsym in Hs. injection Hs as <-. cbn [toStringOpt]. congruence.
Qed.

End Ledger.

(** ** Closing and cancelling *)

Section Closing.
Context {host : Host}.
Import TradingEngine Spec Notions.

Lemma find_none_by_id (positionId : string) (l : list Position.t) :
  (forall p, In p l -> Position.id p <> positionId) ->
  Js.find (fun p => String.eqb (Position.id p) positionId) l = None.
Proof.
  intros Hall. unfold Js.find. induction l as [ | p l IH]; [reflexivity | ].
  simpl. destruct (String.eqb (Position.id p) positionId) eqn:E.
  - apply String.eqb_eq in E. exfalso. apply (Hall p); [now left | exact E].
  - apply IH. intros p' Hin. apply Hall. now right.
Qed.

(** X11: closing a position that is not stored fails with [Position not found]
    and changes nothing. *)
Theorem closePosition_unknown_id (d : Draws.t) (positionId : string)
    (currentPrice : number) (e : t) :
  (forall p, In p (getPositions e) -> Position.id p <> positionId) ->
  closePosition d positionId currentPrice e = (e, failure "Position not found").
Proof.
  intros Hall. unfold closePosition. unfold getPositions in Hall.
  now rewrite (find_none_by_id _ _ Hall).
Qed.

(** X12: closing a position whose size is already 0 is refused by validation: no
    order is stored and the engine is unchanged. *)
Theorem closePosition_flat_position (d : Draws.t) (positionId : string)
    (currentPrice : number) (e : t) (position : Position.t) :
  Js.find (fun p => String.eqb (Position.id p) positionId) (getPositions e)
  = Some position ->
  Position.size position == 0 ->
  let '(e', result) := closePosition d positionId currentPrice e in
  OrderExecutionResult.success result = false
  /\ OrderExecutionResult.orderId result = None
  /\ e' = e.
Proof.
  intros Hfind Hsize. unfold closePosition. unfold getPositions in Hfind.
  rewrite Hfind.
  match goal with |- context [executeOrder d ?o ?b ?p e] =>
    assert (Hinvalid : OrderValidationResult.isValid (validateOrder o b p) = false)
  end.
  { rewrite isValid_rejects. unfold rejects.
    cbn [PartialOrder.symbol PartialOrder.side PartialOrder.type
         PartialOrder.quantity PartialOrder.price].
    assert (Hq : Js.truthy (Some (Js.Math_abs (Position.size position))) = false).
    { apply not_true_iff_false. rewrite truthy_Some. intros Hne. apply Hne.
      unfold Js.Math_abs. rewrite Hsize. reflexivity. }
    rewrite Hq. cbn [negb orb]. now rewrite !orb_true_r. }
  rewrite (executeOrder_invalid d _ _ _ e Hinvalid).
  repeat split.
Qed.

(** Cancelling is not repeatable: after a successful cancel the same id is
    refused and the engine stays as the first cancel left it. *)
Theorem cancelOrder_twice (now now' : number) (orderId : string) (e : t)
    (order : Order.t) :
  JsMap.get orderId (orders e) = Some order ->
  Order.status order = pending ->
  let '(e1, first) := cancelOrder now orderId e in
  first = true /\ cancelOrder now' orderId e1 = (e1, false).
Proof.
  intros Hget Hstatus. unfold cancelOrder at 1. rewrite Hget, Hstatus.
  split; [reflexivity | ].
  unfold cancelOrder. cbn [orders with_orders]. rewrite get_set_same.
  reflexivity.
Qed.


(** What a valid market order leaves in a fresh engine. *)
Lemma market_order_opens (d : Draws.t) (orderData : PartialOrder.t)
    (userBalance : xnumber) (currentPrice : number) (side : Side) (quantity : number) :
  OrderValidationResult.isValid (validateOrder orderData userBalance currentPrice)
  = true ->
  PartialOrder.type orderData = Some market ->
  PartialOrder.side orderData = Some side ->
  PartialOrder.quantity orderData = Some quantity ->
  exists opening position leverage,
    positions (fst (executeOrder d orderData userBalance currentPrice init))
    = [(positionKey opening, position)]
    /\ trades (fst (executeOrder d orderData userBalance currentPrice init)) = [opening]
    /\ Trade.side opening = side
    /\ Trade.quantity opening = quantity
    /\ Trade.leverage opening = Some leverage
    /\ ~ leverage == 0
    /\ Js.truthy_string (Some (Trade.symbol opening)) = true
    /\ Position.id position = "pos-" ++ toString (Draws.now_position d)
    /\ Position.symbol position = Trade.symbol opening
    /\ Position.side position = side_of side
    /\ Position.size position = signedQuantity opening
    /\ Position.entryPrice position = Trade.price opening
    /\ Position.realizedPnl position = 0
    /\ Position.leverage position = leverage.
Proof.
  intros Hvalid Htype Hside Hquantity.
  pose proof Hvalid as Hrej. rewrite isValid_rejects, negb_true_iff in Hrej.
  unfold rejects in Hrej.
  repeat (apply orb_false_iff in Hrej; destruct Hrej as [Hrej ?]).
  apply negb_false_iff in Hrej.
  destruct (PartialOrder.symbol orderData) as [sym|] eqn:Hsym; [ | discriminate].
  unfold executeOrder. rewrite Hvalid, Hsym, Hside, Htype, Hquantity.
  cbn [negb generateOrderId executeMarketOrder fst snd init orders positions trades
       with_orders with_positions with_trades updatePosition JsMap.get JsMap.empty
       JsMap.set push app Order.leverage Order.side Order.symbol Order.quantity].
  eexists. eexists. eexists.
  split; [reflexivity | ]. split; [reflexivity | ].
  cbn [Trade.side Trade.quantity Trade.leverage Trade.symbol Trade.price
       Position.id Position.symbol Position.side Position.size Position.entryPrice
       Position.realizedPnl Position.leverage].
  split; [reflexivity | ]. split; [reflexivity | ]. split; [reflexivity | ].
  split; [apply or_else_nonzero; discriminate | ].
  split; [exact Hrej | ].
  repeat split.
  apply or_else_truthy. apply or_else_nonzero. discriminate.
Qed.


(** A fill against a position for exactly its size. *)
Lemma flatten_fill (d : Draws.t) (trade : Trade.t) (e : t) (position : Position.t) :
  JsMap.get (positionKey trade) (positions e) = Some position ->
  0 < Trade.quantity trade ->
  oppositeDirection trade position ->
  Trade.quantity trade == Qabs (Position.size position) ->
  exists position',
    positions (updatePosition d trade e)
    = JsMap.set (positionKey trade) position' (positions e)
    /\ Position.size position' == 0
    /\ Position.margin position' == 0
    /\ Position.realizedPnl position'
       == Position.realizedPnl position
          + match Trade.side trade with
            | buy => Position.entryPrice position - Trade.price trade
            | sell => Trade.price trade - Position.entryPrice position
            end * Trade.quantity trade * Position.leverage position
    /\ Position.entryPrice position' = Position.entryPrice position
    /\ Position.side position' = Position.side position
    /\ Position.id position' = Position.id position.
Proof.
  intros Hget Hq Hdir Hexact.
  unfold updatePosition. rewrite Hget.
  rewrite (signedQuantity_sign_opposite _ _ Hq Hdir).
  cbn [with_positions positions].
  eexists. split; [reflexivity | ].
  cbn [Position.assign Position.size Position.margin Position.realizedPnl
       Position.entryPrice Position.side Position.id].
  assert (Hzero : Position.size position + signedQuantity trade == 0).
  { unfold signedQuantity.
    destruct Hdir as [[Hside Hsize] | [Hside Hsize]]; rewrite Hside, Hexact.
    - rewrite (Qabs_neg (Position.size position)); lra.
    - rewrite (Qabs_pos (Position.size position)); lra. }
  assert (Hpos : 0 < Qabs (Position.size position)) by (rewrite <- Hexact; exact Hq).
  split; [exact Hzero | ].
  split.
  - assert (Hless : Js.ltb (Js.Math_abs (Position.size position + signedQuantity trade))
                           (Js.Math_abs (Position.size position)) = true).
    { apply ltb_lt. unfold Js.Math_abs. rewrite Hzero. exact Hpos. }
    rewrite Hless. unfold Js.Math_abs. rewrite Hzero.
    change (Qabs 0) with 0. unfold Qdiv. ring.
  - split; [ | repeat split].
    rewrite Math_min_Qmin. unfold Js.Math_abs.
    rewrite (Q.min_l (Qabs (Position.size position)) (Trade.quantity trade));
      [ | rewrite Hexact; apply Qle_refl].
    rewrite <- Hexact. reflexivity.
Qed.

(** X13: a fill against a position for exactly its size flattens it: the size
    and the margin become 0, the P&L of the whole quantity is realized, and
    the position stays stored under its key with its entry price and side. *)
Theorem exact_opposite_fill_flattens (d : Draws.t) (trade : Trade.t) (e : t)
    (position : Position.t) :
  JsMap.get (positionKey trade) (positions e) = Some position ->
  0 < Trade.quantity trade ->
  oppositeDirection trade position ->
  Trade.quantity trade == Qabs (Position.size position) ->
  exists position',
    JsMap.get (positionKey trade) (positions (updatePosition d trade e))
    = Some position'
    /\ Position.size position' == 0
    /\ Position.margin position' == 0
    /\ Position.realizedPnl position'
       == Position.realizedPnl position
          + match Trade.side trade with
            | buy => Position.entryPrice position - Trade.price trade
            | sell => Trade.price trade - Position.entryPrice position
            end * Trade.quantity trade * Position.leverage position
    /\ Position.entryPrice position' = Position.entryPrice position
    /\ Position.side position' = Position.side position.
Proof.
  intros Hget Hq Hdir Hexact.
  destruct (flatten_fill d trade e position Hget Hq Hdir Hexact)
    as (position' & Hpos & Hsize & Hmargin & Hpnl & Hentry & Hside & _).
  exists position'. rewrite Hpos, get_set_same. repeat split; assumption.
Qed.

(** X14: opening a position in a fresh engine with a valid market order and then
    closing it by its id brings it back to size 0 and margin 0: the closing
    order is a market order on the other side for the same quantity, the
    position stays stored, and the realized P&L is the price difference of
    the two trades times quantity and leverage. *)
Theorem open_then_close_is_flat (d1 d2 : Draws.t) (orderData : PartialOrder.t)
    (userBalance : xnumber) (p1 p2 : number) (side : Side) (quantity : number) :
  OrderValidationResult.isValid (validateOrder orderData userBalance p1) = true ->
  PartialOrder.type orderData = Some market ->
  PartialOrder.side orderData = Some side ->
  PartialOrder.quantity orderData = Some quantity ->
  let e1 := fst (executeOrder d1 orderData userBalance p1 init) in
  let closed := closePosition d2 ("pos-" ++ toString (Draws.now_position d1)) p2 e1 in
  OrderExecutionResult.success (snd closed) = true
  /\ exists key position opening closing,
       positions (fst closed) = [(key, position)]
       /\ trades (fst closed) = [opening; closing]
       /\ Trade.side opening = side
       /\ Trade.side closing = match side with buy => sell | sell => buy end
       /\ Trade.quantity closing == quantity
       /\ Position.size position == 0
       /\ Position.margin position == 0
       /\ Position.realizedPnl position
          == match side with
             | buy => Trade.price closing - Trade.price opening
             | sell => Trade.price opening - Trade.price closing
             end * quantity * Position.leverage position.
Proof.
  intros Hvalid Htype Hside Hquantity e1 closed.
  destruct (validateOrder_fields _ _ _ Hvalid)
    as (sym & sd & ty & q & _ & _ & _ & Hq & Hqpos & _).
  rewrite Hquantity in Hq; injection Hq as <-.
  destruct (market_order_opens d1 _ _ _ side quantity Hvalid Htype Hside Hquantity)
    as (opening & position & leverage & Hpositions & Htrades & Hoside & Hoq & Holev
        & Hlev0 & Hosym & Hid & Hsym & Hpside & Hsize & Hentry & Hpnl & Hplev).
  fold e1 in Hpositions, Htrades.
  assert (Habs : Qabs (Position.size position) == quantity).
  { rewrite Hsize. unfold signedQuantity. rewrite Hoside, Hoq.
    destruct side; [apply Qabs_pos; lra | rewrite Qabs_neg; lra]. }
  subst closed. clearbody e1. destruct e1 as [orders1 positions1 trades1 counter1].
  cbn [positions trades] in Hpositions, Htrades. subst positions1 trades1.
  unfold closePosition.
  cbn [positions JsMap.values map snd Js.find List.find]. rewrite Hid.
  rewrite (String.eqb_refl ("pos-" ++ toString (Draws.now_position d1))).
  match goal with |- context [executeOrder d2 ?o ?b ?p _] =>
    set (closingOrder := o);
    assert (Hvalid2 : OrderValidationResult.isValid (validateOrder closingOrder b p) = true)
  end.
  { rewrite isValid_rejects. unfold rejects, insufficientBalance, belowMinimum.
    subst closingOrder.
    cbn [PartialOrder.symbol PartialOrder.side PartialOrder.type
         PartialOrder.quantity PartialOrder.price is_type Js.present test].
    rewrite Hsym, Hosym.
    assert (Ht : Js.truthy (Some (Js.Math_abs (Position.size position))) = true).
    { apply truthy_Some. unfold Js.Math_abs. rewrite Habs. now apply not_zero_lt. }
    assert (Hl : Js.leb (Js.Math_abs (Position.size position)) 0 = false).
    { apply leb_gt. unfold Js.Math_abs. rewrite Habs. exact Hqpos. }
    rewrite Ht, Hl. cbn [negb orb andb].
    destruct (PositionSide_is_buy (Position.side position)); reflexivity. }
  unfold executeOrder. rewrite Hvalid2. subst closingOrder.
  cbn [negb PartialOrder.symbol PartialOrder.side PartialOrder.type
       PartialOrder.quantity PartialOrder.price PartialOrder.leverage
       PartialOrder.stopLoss PartialOrder.takeProfit PartialOrder.timeInForce
       generateOrderId executeMarketOrder fst snd OrderExecutionResult.success
       Order.side Order.symbol Order.quantity Order.leverage Order.id
       orders positions trades with_orders with_trades].
  split; [reflexivity | ].
  match goal with |- context [updatePosition d2 ?tr _] =>
    remember tr as closing eqn:Hclosing
  end.
  match goal with |- context [updatePosition d2 closing ?en] =>
    remember en as e1' eqn:He1'
  end.
  assert (Hcside : Trade.side closing = match side with buy => sell | sell => buy end).
  { subst closing. cbn [Trade.side]. rewrite Hpside. destruct side; reflexivity. }
  assert (Hkey : positionKey closing = positionKey opening).
  { unfold positionKey. subst closing. cbn [Trade.symbol Trade.leverage].
    rewrite Hsym, Holev, Hplev, (or_else_truthy _ _ Hlev0). reflexivity. }
  assert (Hget : JsMap.get (positionKey closing) (positions e1') = Some position).
  { subst e1'. cbn [positions with_trades with_orders]. rewrite Hkey.
    cbn [JsMap.get]. now rewrite (String.eqb_refl (positionKey opening)). }
  assert (Hcq : Trade.quantity closing == Qabs (Position.size position)).
  { subst closing. cbn [Trade.quantity]. reflexivity. }
  assert (Hcpos : 0 < Trade.quantity closing) by (rewrite Hcq, Habs; exact Hqpos).
  assert (Hopp : oppositeDirection closing position).
  { unfold oppositeDirection. rewrite Hcside, Hsize. unfold signedQuantity.
    rewrite Hoside, Hoq. destruct side; [right | left]; split; try reflexivity; lra. }
  destruct (flatten_fill d2 closing e1' position Hget Hcpos Hopp Hcq)
    as (position' & Hpos' & Hsize' & Hmargin' & Hpnl' & Hentry' & _ & _).
  exists (positionKey opening), position', opening, closing.
  split.
  { rewrite Hpos'. subst e1'. cbn [positions with_trades with_orders]. rewrite Hkey.
    cbn [JsMap.set]. now rewrite (String.eqb_refl (positionKey opening)). }
  split.
  { cbn [updatePosition with_positions trades]. subst e1'.
    cbn [trades with_trades with_orders push]. reflexivity. }
  split; [exact Hoside | ]. split; [exact Hcside | ].
  split; [rewrite Hcq; exact Habs | ].
  split; [exact Hsize' | ]. split; [exact Hmargin' | ].
  rewrite Hpnl', Hpnl, Hcside, Hentry, Hcq, Habs.
  assert (Hlev' : Position.leverage position' = Position.leverage position).
  { unfold updatePosition in Hpos'. rewrite Hget in Hpos'.
    rewrite (signedQuantity_sign_opposite _ _ Hcpos Hopp) in Hpos'.
    cbn [with_positions positions] in Hpos'.
    assert (Hsame : JsMap.get (positionKey closing)
                      (JsMap.set (positionKey closing) position' (positions e1'))
                    = Some position') by apply get_set_same.
    rewrite <- Hpos', get_set_same in Hsame. injection Hsame as <-. reflexivity. }
  rewrite Hlev'. destruct side; ring.
Qed.

End Closing.

Section Reopening.
Context {host : Host}.
Import TradingEngine Spec Notions.


End Reopening.

(** ** [checkRisk] *)

Section CheckRisk.
Import TradingEngine Spec Notions.

Lemma missing_truthy (o : option number) : missing o <-> Js.truthy o = false.
Proof.
  unfold missing. destruct o as [q|]; simpl.
  - rewrite negb_false_iff, Qeq_bool_iff. split.
    + intros [H | (q' & Hq' & H0)]; [discriminate | now injection Hq' as ->].
    + intros H. right. now exists q.
  - split; [reflexivity | now left].
Qed.

(** X16: without a quantity or without a price (missing or 0) the check refuses
    the order as invalid and suggests no size. *)
Theorem checkRisk_invalid_parameters (order : PartialOrder.t) (userBalance : number)
    (currentPositions : list Position.t) :
  missing (PartialOrder.quantity order) \/ missing (PartialOrder.price order) ->
  checkRisk order userBalance currentPositions
  = {| RiskCheckResult.allowed := false;
       RiskCheckResult.reason := Some "Invalid order parameters";
       RiskCheckResult.suggestedMaxSize := None |}.
Proof.
  rewrite !missing_truthy. intros H. unfold checkRisk.
  destruct (PartialOrder.quantity order) as [q|];
    destruct (PartialOrder.price order) as [p|]; try reflexivity.
  destruct H as [H | H]; rewrite H; [reflexivity | ].
  now rewrite orb_true_r.
Qed.

Lemma fold_exposure_ge (l : list Position.t) (a : number) :
  a <= fold_left
         (fun sum pos => sum + Js.Math_abs (Position.size pos * Position.markPrice pos))
         l a.
Proof.
  revert a. induction l as [ | pos l IH]; intros a; cbn [fold_left]; [apply Qle_refl | ].
  eapply Qle_trans; [ | apply IH].
  pose proof (Qabs_nonneg (Position.size pos * Position.markPrice pos)) as H.
  unfold Js.Math_abs. lra.
Qed.

Lemma fold_exposure_le (l : list Position.t) (a b : number) :
  a <= b ->
  fold_left
    (fun sum pos => sum + Js.Math_abs (Position.size pos * Position.markPrice pos)) l a
  <= fold_left
       (fun sum pos => sum + Js.Math_abs (Position.size pos * Position.markPrice pos)) l b.
Proof.
  revert a b. induction l as [ | pos l IH]; intros a b Hab; cbn [fold_left];
    [exact Hab | ].
  apply IH. lra.
Qed.

Lemma totalExposure_nonneg (l : list Position.t) : 0 <= totalExposure l.
Proof. apply fold_exposure_ge. Qed.

Lemma totalExposure_app (l extra : list Position.t) :
  totalExposure l <= totalExposure (l ++ extra)%list.
Proof.
  unfold totalExposure. rewrite fold_left_app. apply fold_exposure_ge.
Qed.

(** The decision of [checkRisk] on an order with a quantity and a price. *)
Lemma checkRisk_cases (order : PartialOrder.t) (userBalance : number)
    (currentPositions : list Position.t) (quantity price : number) :
  PartialOrder.quantity order = Some quantity ->
  PartialOrder.price order = Some price ->
  ~ quantity == 0 ->
  ~ price == 0 ->
  let leverage := Js.or_else (PartialOrder.leverage order) 1 in
  let result := checkRisk order userBalance currentPositions in
  (userBalance * (8 # 10) < quantity * price / leverage
   /\ result = {| RiskCheckResult.allowed := false;
                  RiskCheckResult.reason := Some "Insufficient margin";
                  RiskCheckResult.suggestedMaxSize :=
                    Some (userBalance * (8 # 10) * leverage / price) |})
  \/ (quantity * price / leverage <= userBalance * (8 # 10)
      /\ userBalance * 10 < totalExposure currentPositions + quantity * price
      /\ result = {| RiskCheckResult.allowed := false;
                     RiskCheckResult.reason := Some "Maximum exposure limit reached";
                     RiskCheckResult.suggestedMaxSize := None |})
  \/ (quantity * price / leverage <= userBalance * (8 # 10)
      /\ totalExposure currentPositions + quantity * price <= userBalance * 10
      /\ result = {| RiskCheckResult.allowed := true;
                     RiskCheckResult.reason := None;
                     RiskCheckResult.suggestedMaxSize := None |}).
Proof.
  intros Hq Hp Hq0 Hp0 leverage result. subst result leverage.
  apply truthy_Some in Hq0. apply truthy_Some in Hp0.
  unfold checkRisk. rewrite Hq, Hp, Hq0, Hp0. cbn [negb orb].
  destruct (Js.gtb _ (userBalance * (8 # 10))) eqn:Hm.
  - left. apply gtb_gt in Hm. split; [exact Hm | reflexivity].
  - right. apply ltb_ge in Hm.
    destruct (Js.gtb _ (userBalance * 10)) eqn:Hx.
    + left. apply gtb_gt in Hx. repeat split; assumption.
    + right. apply ltb_ge in Hx. repeat split; assumption.
Qed.

(** X17: an order is allowed exactly when its margin is within 80% of the balance
    and the exposure of the positions plus its notional is within ten times
    the balance; a margin failure is reported before an exposure failure. *)
Theorem checkRisk_allowed_iff (order : PartialOrder.t) (userBalance : number)
    (currentPositions : list Position.t) (quantity price : number) :
  PartialOrder.quantity order = Some quantity ->
  PartialOrder.price order = Some price ->
  ~ quantity == 0 ->
  ~ price == 0 ->
  let leverage := Js.or_else (PartialOrder.leverage order) 1 in
  let result := checkRisk order userBalance currentPositions in
  (RiskCheckResult.allowed result = true
   <-> quantity * price / leverage <= userBalance * (8 # 10)
       /\ totalExposure currentPositions + quantity * price <= userBalance * 10)
  /\ (userBalance * (8 # 10) < quantity * price / leverage ->
      RiskCheckResult.reason result = Some "Insufficient margin")
  /\ (quantity * price / leverage <= userBalance * (8 # 10) ->
      userBalance * 10 < totalExposure currentPositions + quantity * price ->
      RiskCheckResult.reason result = Some "Maximum exposure limit reached").
Proof.
  intros Hq Hp Hq0 Hp0 leverage result.
  destruct (checkRisk_cases order userBalance currentPositions quantity price
              Hq Hp Hq0 Hp0) as [(Hm & Hr) | [(Hm & Hx & Hr) | (Hm & Hx & Hr)]];
    fold leverage in Hm, Hr; fold result in Hr; rewrite Hr;
    cbn [RiskCheckResult.allowed RiskCheckResult.reason].
  - split; [ | split].
    + split; [discriminate | intros (H & _); lra].
    + reflexivity.
    + intros H; lra.
  - split; [ | split].
    + split; [discriminate | intros (_ & H); lra].
    + intros H; lra.
    + reflexivity.
  - split; [ | split].
    + split; [intros _; split; assumption | reflexivity].
    + intros H; lra.
    + intros _ H; lra.
Qed.


Lemma div_le_compat (a b c : number) : 0 < c -> a <= b -> a / c <= b / c.
Proof.
  intros Hc Hab. unfold Qdiv. apply Qmult_le_compat_r; [exact Hab | ].
  apply Qlt_le_weak. now apply Qinv_lt_0_compat.
Qed.

(** X18: shrinking an allowed order keeps it allowed: with a positive price and a
    positive leverage, a smaller positive quantity passes whenever the larger
    one does. *)
Theorem checkRisk_smaller_order (order : PartialOrder.t) (userBalance : number)
    (currentPositions : list Position.t) (quantity quantity' price : number) :
  PartialOrder.quantity order = Some quantity ->
  PartialOrder.price order = Some price ->
  0 < price ->
  0 < Js.or_else (PartialOrder.leverage order) 1 ->
  0 < quantity' ->
  quantity' <= quantity ->
  RiskCheckResult.allowed (checkRisk order userBalance currentPositions) = true ->
  RiskCheckResult.allowed
    (checkRisk (withQuantity order quantity') userBalance currentPositions) = true.
Proof.
  intros Hq Hp Hppos Hlev Hq'pos Hle Hallowed.
  assert (Hq0 : ~ quantity == 0) by (intros E; rewrite E in Hle; lra).
  assert (Hq'0 : ~ quantity' == 0) by (intros E; rewrite E in Hq'pos; lra).
  assert (Hp0 : ~ price == 0) by (intros E; rewrite E in Hppos; lra).
  assert (Hmono : quantity' * price <= quantity * price).
  { apply Qmult_le_compat_r; [exact Hle | now apply Qlt_le_weak]. }
  pose proof (div_le_compat _ _ _ Hlev Hmono) as Hmargin.
  destruct (checkRisk_cases order userBalance currentPositions quantity price
              Hq Hp Hq0 Hp0) as [(_ & Hr) | [(_ & _ & Hr) | (Hm & Hx & _)]];
    try (rewrite Hr in Hallowed; discriminate).
  destruct (checkRisk_cases (withQuantity order quantity') userBalance currentPositions
              quantity' price eq_refl Hp Hq'0 Hp0)
    as [(Hm' & _) | [(_ & Hx' & _) | (_ & _ & Hr')]];
    cbn [withQuantity PartialOrder.leverage] in *.
  - lra.
  - lra.
  - rewrite Hr'. reflexivity.
Qed.

(** X19: exposure only counts against an order: an order allowed beside a list of
    positions is allowed beside any initial part of that list. *)
Theorem checkRisk_fewer_positions (order : PartialOrder.t) (userBalance : number)
    (currentPositions extra : list Position.t) :
  RiskCheckResult.allowed
    (checkRisk order userBalance (currentPositions ++ extra)%list) = true ->
  RiskCheckResult.allowed (checkRisk order userBalance currentPositions) = true.
Proof.
  unfold checkRisk.
  destruct (PartialOrder.quantity order) as [q|]; [ | discriminate].
  destruct (PartialOrder.price order) as [p|]; [ | discriminate].
  destruct (negb (Js.truthy (Some q)) || negb (Js.truthy (Some p))); [discriminate | ].
  destruct (Js.gtb _ (userBalance * (8 # 10))); [discriminate | ].
  destruct (Js.gtb (totalExposure (currentPositions ++ extra) + q * p) (userBalance * 10))
    eqn:Hx; [discriminate | ].
  intros _. apply ltb_ge in Hx.
  pose proof (totalExposure_app currentPositions extra) as Happ.
  assert (Hx' : Js.gtb (totalExposure currentPositions + q * p) (userBalance * 10) = false).
  { apply ltb_ge. lra. }
  now rewrite Hx'.
Qed.


End CheckRisk.

(** * Further properties of the risk manager *)

(** ** [RiskManager.validateOrder] *)

Section RiskOrderCheck.
Context {host : Host} {locale : Locale}.
Variable limits : RiskLimits.t.
Import Spec Notions.


(** Without a quantity or without a price (missing or 0) the order is
    refused with the single reason [Invalid order parameters]; no limit is
    looked at. *)
Theorem riskValidateOrder_invalid_parameters (order : PartialOrder.t)
    (positions : list Position.t) (accountBalance : number) :
  missing (PartialOrder.quantity order) \/ missing (PartialOrder.price order) ->
  RiskManager.validateOrder limits order positions accountBalance
  = {| RiskManager.allowed := false;
       RiskManager.reasons := ["Invalid order parameters"] |}.
Proof.
  rewrite !missing_truthy. intros H. unfold RiskManager.validateOrder.
  destruct (PartialOrder.quantity order) as [q|];
    destruct (PartialOrder.price order) as [p|]; try reflexivity.
  destruct H as [H | H]; rewrite H; [reflexivity | ].
  now rewrite orb_true_r.
Qed.



Lemma In_risk_push_if {A : Type} (c : bool) (l : list A) (x y : A) :
  In y (if c then RiskManager.push l x else l) <-> In y l \/ (c = true /\ x = y).
Proof.
  destruct c.
  - unfold RiskManager.push. rewrite in_app_iff. simpl. intuition.
  - intuition discriminate.
Qed.

Lemma prefix_append (s t : string) : String.prefix s (s ++ t) = true.
Proof.
  induction s as [ | a s IH]; simpl.
  - destruct t; reflexivity.
  - destruct (Ascii.ascii_dec a a) as [_ | Hne]; [exact IH | now elim Hne].
Qed.

(** X22: with a positive balance and a utilization limit below 100%, an order
    refused for insufficient available margin is also refused for exceeding
    the margin limit. *)
Theorem riskValidateOrder_available_margin_subsumed (order : PartialOrder.t)
    (positions : list Position.t) (accountBalance : number) :
  0 < accountBalance ->
  RiskLimits.maxMarginUtilization limits < 1 ->
  let reasons :=
    RiskManager.reasons
      (RiskManager.validateOrder limits order positions accountBalance) in
  In "Insufficient available margin" reasons ->
  exists message,
    In message reasons /\ String.prefix "Would exceed margin limit (" message = true.
Proof.
  intros Hbal Hmax reasons. subst reasons. unfold RiskManager.validateOrder.
  destruct (PartialOrder.quantity order) as [q|];
    [ | cbn; intros [H | []]; discriminate].
  destruct (PartialOrder.price order) as [p|];
    [ | cbn; intros [H | []]; discriminate].
  destruct (negb (Js.truthy (Some q)) || negb (Js.truthy (Some p)));
    [cbn; intros [H | []]; discriminate | ].
  cbv zeta. cbn [RiskManager.reasons].
  set (required := q * p / Js.or_else (PartialOrder.leverage order) 1).
  set (used := RiskManager.sum Position.margin positions).
  rewrite !In_risk_push_if.
  intros [[[[[[] | (_ & H)] | (_ & H)] | (_ & H)] | (_ & H)] | (Hc & _)];
    try discriminate.
  apply gtb_gt in Hc.
  assert (Hfirst : Js.gtb ((used + required) / accountBalance)
                          (RiskLimits.maxMarginUtilization limits) = true).
  { apply gtb_gt. apply Qlt_trans with 1; [exact Hmax | ].
    apply Qlt_shift_div_l; [exact Hbal | lra]. }
  rewrite Hfirst. eexists. rewrite !In_risk_push_if.
  split; [do 4 left; unfold RiskManager.push; cbn [app In]; left; reflexivity
         | apply prefix_append].
Qed.

End RiskOrderCheck.

(** ** [getPositionRecommendations] *)

Section Recommendations.
Import Spec Notions.

(** The two quantities the recommendations are decided on. *)
Lemma recommendations_cases (position : Position.t) (currentPrice : number) :
  let pnlPercentage :=
    Position.unrealizedPnl position / Position.margin position * 100 in
  let priceChange :=
    (currentPrice - Position.entryPrice position) / Position.entryPrice position in
  let watch :=
    Js.gtb (Position.leverage position) 10 && Js.gtb (Qabs priceChange) (5 # 100) in
  let monitor :=
    {| RiskManager.action := "Monitor position closely";
       RiskManager.reason := "High leverage position with significant price movement";
       RiskManager.urgency := medium |} in
  let tail := if watch then [monitor] else [] in
  (pnlPercentage < - (70)
   /\ RiskManager.getPositionRecommendations position currentPrice
      = {| RiskManager.action := "Close position immediately";
           RiskManager.reason := "Position at critical liquidation risk";
           RiskManager.urgency := high |} :: tail)
  \/ (- (70) <= pnlPercentage /\ pnlPercentage < - (50)
      /\ RiskManager.getPositionRecommendations position currentPrice
         = {| RiskManager.action := "Consider closing position";
              RiskManager.reason := "Position at high liquidation risk";
              RiskManager.urgency := medium |} :: tail)
  \/ (- (50) <= pnlPercentage /\ pnlPercentage <= 100
      /\ RiskManager.getPositionRecommendations position currentPrice = tail)
  \/ (100 < pnlPercentage
      /\ RiskManager.getPositionRecommendations position currentPrice
         = {| RiskManager.action := "Consider taking partial profits";
              RiskManager.reason := "Position showing strong profits";
              RiskManager.urgency := low |} :: tail).
Proof.
  intros pnlPercentage priceChange watch monitor tail.
  unfold RiskManager.getPositionRecommendations. cbv zeta.
  fold pnlPercentage. fold priceChange. unfold Js.Math_abs. fold watch.
  destruct (Js.ltb pnlPercentage (- (70))) eqn:H70.
  - apply ltb_lt in H70. left. split; [exact H70 | ].
    assert (H100 : Js.gtb pnlPercentage 100 = false) by (apply ltb_ge; lra).
    rewrite H100. subst tail. destruct watch; reflexivity.
  - apply ltb_ge in H70. right.
    destruct (Js.ltb pnlPercentage (- (50))) eqn:H50.
    + apply ltb_lt in H50. left. split; [exact H70 | ]. split; [exact H50 | ].
      assert (H100 : Js.gtb pnlPercentage 100 = false) by (apply ltb_ge; lra).
      rewrite H100. subst tail. destruct watch; reflexivity.
    + apply ltb_ge in H50. right.
      destruct (Js.gtb pnlPercentage 100) eqn:H100.
      * apply gtb_gt in H100. right. split; [exact H100 | ].
        subst tail. destruct watch; reflexivity.
      * apply ltb_ge in H100. left. split; [exact H50 | ]. split; [exact H100 | ].
        subst tail. destruct watch; reflexivity.
Qed.

(** X23: a position gets at most two recommendations, and at most one of them
    is about its P&L: closing and profit taking never come together. *)
Theorem recommendations_at_most_two (position : Position.t) (currentPrice : number) :
  let recommendations := RiskManager.getPositionRecommendations position currentPrice in
  (List.length recommendations <= 2)%nat
  /\ (List.length
        (filter (fun r => negb (String.eqb (RiskManager.action r)
                                           "Monitor position closely"))
                recommendations) <= 1)%nat.
Proof.
  intros recommendations. subst recommendations.
  destruct (recommendations_cases position currentPrice)
    as [(_ & ->) | [(_ & _ & ->) | [(_ & _ & ->) | (_ & ->)]]];
    match goal with |- context [if ?w then _ else _] => destruct w end;
    cbn; lia.
Qed.


End Recommendations.

(** ** The risk score and the metrics *)

Section RiskMetricsMore.
Context {host : Host}.
Import Spec Notions RiskManager.

Lemma Math_min_nonneg (a b : number) : 0 <= a -> 0 <= b -> 0 <= Js.Math_min a b.
Proof. intros Ha Hb. unfold Js.Math_min. destruct (Js.leb a b); assumption. Qed.

Lemma Math_min_le_r (a b : number) : Js.Math_min a b <= b.
Proof. rewrite Math_min_Qmin. apply Q.le_min_r. Qed.

Lemma Math_min_le_l (a b : number) : Js.Math_min a b <= a.
Proof. rewrite Math_min_Qmin. apply Q.le_min_l. Qed.

Lemma len_nonneg {A : Type} (l : list A) : 0 <= len l.
Proof.
  unfold len. change 0 with (inject_Z 0). rewrite <- Zle_Qle. lia.
Qed.

Lemma div_nonneg (a b : number) : 0 <= a -> 0 < b -> 0 <= a / b.
Proof.
  intros Ha Hb. apply Qle_shift_div_l; [exact Hb | lra].
Qed.

Lemma calculateRiskScore_bounds (limits : RiskLimits.t)
    (marginUtilization positionCount pnlRatio : number) :
  calculateRiskScore limits marginUtilization positionCount pnlRatio <= 100
  /\ (0 <= marginUtilization ->
      0 <= positionCount ->
      0 < RiskLimits.maxConcurrentPositions limits ->
      0 <= calculateRiskScore limits marginUtilization positionCount pnlRatio).
Proof.
  unfold calculateRiskScore. split.
  - destruct (Js.ltb pnlRatio 0); apply Math_min_le_r.
  - intros Hu Hn Hmax.
    pose proof (Math_min_nonneg _ 1 (div_nonneg _ _ Hn Hmax) ltac:(lra)) as Hcount.
    assert (Hloss : 0 <= Js.Math_min (Js.Math_abs pnlRatio * 2) 1).
    { apply Math_min_nonneg; [ | lra].
      pose proof (Qabs_nonneg pnlRatio). unfold Js.Math_abs. lra. }
    destruct (Js.ltb pnlRatio 0); apply Math_min_nonneg; lra.
Qed.

(** X25: the reported risk score never exceeds 100, and it is not negative when
    the margin utilization is not negative and the position limit is
    positive. *)
Theorem riskScore_within_bounds (limits : RiskLimits.t) (positions : list Position.t)
    (orders : list Order.t) (accountBalance : number) :
  let metrics := calculateRiskMetrics limits positions orders accountBalance in
  RiskMetrics.riskScore metrics <= 100
  /\ (0 <= RiskMetrics.marginUtilization metrics ->
      0 < RiskLimits.maxConcurrentPositions limits ->
      0 <= RiskMetrics.riskScore metrics).
Proof.
  intros metrics. subst metrics. unfold calculateRiskMetrics.
  cbn [RiskMetrics.riskScore RiskMetrics.marginUtilization].
  split.
  - apply calculateRiskScore_bounds.
  - intros Hu Hmax. apply calculateRiskScore_bounds; [exact Hu | apply len_nonneg | exact Hmax].
Qed.

(** X26: losses raise the score and profits do not lower it: the score is the same
    for every non-negative P&L ratio, and a lower ratio never gives a lower
    score. *)
Theorem riskScore_loss_asymmetry (limits : RiskLimits.t)
    (marginUtilization positionCount : number) :
  (forall pnlRatio, 0 <= pnlRatio ->
     calculateRiskScore limits marginUtilization positionCount pnlRatio
     = calculateRiskScore limits marginUtilization positionCount 0)
  /\ (forall r1 r2, r1 <= r2 ->
        calculateRiskScore limits marginUtilization positionCount r2
        <= calculateRiskScore limits marginUtilization positionCount r1).
Proof.
  split.
  - intros r Hr. unfold calculateRiskScore.
    assert (H : Js.ltb r 0 = false) by now apply ltb_ge.
    rewrite H. reflexivity.
  - intros r1 r2 Hle. unfold calculateRiskScore.
    assert (Hloss : forall r, 0 <= Js.Math_min (Js.Math_abs r * 2) 1 * 30).
    { intros r.
      assert (H : 0 <= Js.Math_min (Js.Math_abs r * 2) 1).
      { apply Math_min_nonneg; [ | lra].
        pose proof (Qabs_nonneg r). unfold Js.Math_abs. lra. }
      lra. }
    destruct (Js.ltb r2 0) eqn:H2; destruct (Js.ltb r1 0) eqn:H1.
    + apply ltb_lt in H1. apply ltb_lt in H2.
      apply Math_min_le_compat_l.
      assert (Hmin : Js.Math_min (Js.Math_abs r2 * 2) 1
                     <= Js.Math_min (Js.Math_abs r1 * 2) 1).
      { apply Math_min_le_compat_l. unfold Js.Math_abs.
        rewrite (Qabs_neg r1), (Qabs_neg r2); lra. }
      lra.
    + apply ltb_ge in H1. apply ltb_lt in H2. lra.
    + apply Math_min_le_compat_l. pose proof (Hloss r1). lra.
    + apply Qle_refl.
Qed.

(** X27: more positions never lower the score, and raising the position limit
    with [setRiskLimits] never raises it (positive limits). *)
Theorem riskScore_position_count (limits : RiskLimits.t)
    (marginUtilization pnlRatio : number) :
  (forall n1 n2,
     0 < RiskLimits.maxConcurrentPositions limits ->
     n1 <= n2 ->
     calculateRiskScore limits marginUtilization n1 pnlRatio
     <= calculateRiskScore limits marginUtilization n2 pnlRatio)
  /\ (forall cap1 cap2 positionCount,
        0 < cap1 ->
        cap1 <= cap2 ->
        0 <= positionCount ->
        calculateRiskScore (setRiskLimits (onlyMaxConcurrentPositions cap2) limits)
          marginUtilization positionCount pnlRatio
        <= calculateRiskScore (setRiskLimits (onlyMaxConcurrentPositions cap1) limits)
             marginUtilization positionCount pnlRatio).
Proof.
  split.
  - intros n1 n2 Hmax Hn. unfold calculateRiskScore.
    assert (Hmin : Js.Math_min (n1 / RiskLimits.maxConcurrentPositions limits) 1
                   <= Js.Math_min (n2 / RiskLimits.maxConcurrentPositions limits) 1).
    { apply Math_min_le_compat_l. now apply div_le_compat. }
    destruct (Js.ltb pnlRatio 0); apply Math_min_le_compat_l; lra.
  - intros cap1 cap2 n Hcap1 Hcap Hn. unfold calculateRiskScore.
    cbn [setRiskLimits onlyMaxConcurrentPositions RiskLimits.maxConcurrentPositions
         newMaxConcurrentPositions spread].
    assert (Hcap2 : 0 < cap2) by lra.
    assert (Hdiv : n / cap2 <= n / cap1).
    { apply Qle_shift_div_r; [exact Hcap2 | ].
      assert (Heq : n == n / cap1 * cap1) by (field; lra).
      apply Qle_trans with (n / cap1 * cap1); [rewrite <- Heq; apply Qle_refl | ].
      rewrite !(Qmult_comm (n / cap1)).
      apply Qmult_le_compat_r; [exact Hcap | now apply div_nonneg]. }
    assert (Hmin : Js.Math_min (n / cap2) 1 <= Js.Math_min (n / cap1) 1)
      by now apply Math_min_le_compat_l.
    destruct (Js.ltb pnlRatio 0); apply Math_min_le_compat_l; lra.
Qed.







(** X30: with no position (a non-zero balance and non-negative limits) every
    metric is at rest: no exposure, no margin used, utilization and score 0,
    the whole balance available, risk [low], no warning. *)
Theorem calculateRiskMetrics_no_positions (limits : RiskLimits.t)
    (orders : list Order.t) (accountBalance : number) :
  ~ accountBalance == 0 ->
  ~ RiskLimits.maxConcurrentPositions limits == 0 ->
  0 <= RiskLimits.maxMarginUtilization limits ->
  0 <= RiskLimits.maxConcurrentPositions limits ->
  0 <= RiskLimits.maxDailyLoss limits ->
  let metrics := calculateRiskMetrics limits [] orders accountBalance in
  RiskMetrics.totalExposure metrics == 0
  /\ RiskMetrics.marginUsed metrics == 0
  /\ RiskMetrics.availableMargin metrics == accountBalance
  /\ RiskMetrics.marginUtilization metrics == 0
  /\ RiskMetrics.totalUnrealizedPnl metrics == 0
  /\ RiskMetrics.totalRealizedPnl metrics == 0
  /\ RiskMetrics.riskScore metrics == 0
  /\ RiskMetrics.maxPositionSize metrics
     == Qmin (accountBalance / 2) (RiskLimits.maxPositionSize limits)
  /\ RiskMetrics.liquidationRisk metrics = low
  /\ RiskMetrics.warnings metrics = [].
Proof.
  intros Hbal Hmax0 Hutil Hmax Hloss metrics. subst metrics.
  unfold calculateRiskMetrics.
  cbn [RiskMetrics.totalExposure RiskMetrics.marginUsed RiskMetrics.availableMargin
       RiskMetrics.marginUtilization RiskMetrics.totalUnrealizedPnl
       RiskMetrics.totalRealizedPnl RiskMetrics.riskScore RiskMetrics.maxPositionSize
       RiskMetrics.liquidationRisk RiskMetrics.warnings sum fold_left].
  assert (Hzero : 0 / accountBalance == 0) by (unfold Qdiv; ring).
  split; [reflexivity | ]. split; [reflexivity | ]. split; [ring | ].
  split; [exact Hzero | ]. split; [reflexivity | ]. split; [reflexivity | ].
  split; [ | split; [ | split]].
  - unfold calculateRiskScore.
    assert (Hr : Js.ltb (0 / accountBalance) 0 = false) by (apply ltb_ge; lra).
    rewrite Hr. unfold len. cbn [List.length Z.of_nat].
    assert (Hc : inject_Z 0 / RiskLimits.maxConcurrentPositions limits == 0)
      by (unfold Qdiv; ring).
    rewrite !Math_min_Qmin, Hzero, Hc.
    rewrite (Q.min_l 0 1) by lra. rewrite Q.min_l; lra.
  - unfold calculateMaxPositionSize. rewrite Math_min_Qmin.
    apply Q.min_compat; [ | reflexivity]. field.
  - unfold calculateLiquidationRisk.
    cbn [filter sum fold_left]. unfold len. cbn [List.length Z.of_nat].
    change (Js.gtb (inject_Z 0) 2) with false.
    change (Js.gtb (inject_Z 0) 0) with false.
    change (Js.gtb (inject_Z 0) 3) with false.
    assert (H9 : Js.gtb (0 / accountBalance) (9 # 10) = false) by (apply ltb_ge; lra).
    assert (H7 : Js.gtb (0 / accountBalance) (7 # 10) = false) by (apply ltb_ge; lra).
    rewrite H9, H7. reflexivity.
  - unfold generateWarnings.
    cbn [filter sum fold_left]. unfold len. cbn [List.length Z.of_nat].
    change (Js.gtb (inject_Z 0) 0) with false.
    assert (H1 : Js.gtb (0 / accountBalance) (RiskLimits.maxMarginUtilization limits)
                 = false) by (apply ltb_ge; lra).
    assert (H2 : Js.gtb (inject_Z 0) (RiskLimits.maxConcurrentPositions limits) = false)
      by (apply ltb_ge; exact Hmax).
    assert (H3 : Js.ltb 0 (- RiskLimits.maxDailyLoss limits) = false)
      by (apply ltb_ge; lra).
    rewrite H1, H2, H3. reflexivity.
Qed.

End RiskMetricsMore.

(** * Closed instances of the further properties *)

Section MoreInstances.
#[local] Existing Instance exampleHost.
#[local] Existing Instance exampleLocale.
Import TradingEngine Spec Notions.

Lemma validateOrder_minimum_notional_witness :
  let validation :=
    validateOrder (order "BTC" sell limit 1 (Some 5) None) (Fin 1000) 5 in
  OrderValidationResult.isValid validation = false
  /\ In ("Order size must be at least $" ++ toString 10)
        (OrderValidationResult.errors validation).
Proof.
  apply (validateOrder_minimum_notional (order "BTC" sell limit 1 (Some 5) None)
           (Fin 1000) 5 1 5).
  - reflexivity.
  - reflexivity.
  - discriminate.
  - discriminate.
  - reflexivity.
Defined.

Lemma validateOrder_balance_monotone_witness :
  OrderValidationResult.isValid
    (validateOrder (order "BTC" buy limit 1 (Some 100) None) Infinity 100) = true.
Proof.
  apply (validateOrder_balance_monotone (order "BTC" buy limit 1 (Some 100) None)
           (Fin 150) Infinity 100).
  - exact I.
  - reflexivity.
Defined.

Lemma validateOrder_market_without_price_witness :
  OrderValidationResult.isValid
    (validateOrder (order "BTC" sell market 3 None None) (Fin 0) 100) = true.
Proof.
  apply (validateOrder_market_without_price (order "BTC" sell market 3 None None)
           (Fin 0) 100 eq_refl eq_refl).
  split; [reflexivity | ]. split; [now exists sell | ].
  exists 3. split; reflexivity.
Defined.

Lemma market_order_fills_in_full_witness :
  OrderExecutionResult.executedQuantity
    (snd (executeOrder (draws 1) (order "BTC" buy market 2 None None) (Fin 1000) 100 init))
  = Some 2.
Proof.
  pose proof (market_order_fills_in_full (draws 1) (order "BTC" buy market 2 None None)
                (Fin 1000) 100 init 2 eq_refl eq_refl eq_refl) as H.
  destruct (executeOrder (draws 1) (order "BTC" buy market 2 None None) (Fin 1000) 100 init)
    as [e' result].
  exact (proj1 (proj2 H)).
Defined.

Lemma marketable_limit_order_witness :
  OrderExecutionResult.executedPrice
    (snd (executeOrder (draws 1) (order "BTC" buy limit 1 (Some 110) None)
            (Fin 1000) 100 init))
  = Some 110.
Proof.
  pose proof (marketable_limit_order_fills_at_limit (draws 1)
                (order "BTC" buy limit 1 (Some 110) None) (Fin 1000) 100 init
                buy 1 110 eq_refl eq_refl eq_refl eq_refl eq_refl) as H.
  assert (Hm : marketable buy 110 100) by (left; split; [reflexivity | discriminate]).
  specialize (H Hm).
  destruct (executeOrder (draws 1) (order "BTC" buy limit 1 (Some 110) None)
              (Fin 1000) 100 init) as [e' result].
  exact (proj1 (proj2 H)).
Defined.

Lemma executeOrder_stores_request_witness :
  exists id stored,
    getOrder id
      (fst (executeOrder (draws 1) (order "BTC" buy market 2 None None)
              (Fin 1000) 100 init)) = Some stored
    /\ Order.price stored = Some 100
    /\ Order.leverage stored = Some 1
    /\ Order.timeInForce stored = Some GTC.
Proof.
  destruct (executeOrder_stores_request_with_defaults (draws 1)
              (order "BTC" buy market 2 None None) (Fin 1000) 100 init eq_refl)
    as (id & stored & _ & Hget & _ & _ & _ & _ & _ & _ & _ & Hprice & _ & Hlev & _
        & Htif & _).
  exists id, stored. split; [exact Hget | ].
  split; [exact (Hprice eq_refl) | ].
  split; [exact (Hlev eq_refl) | exact (Htif eq_refl)].
Defined.

Lemma reachable_orders_all_filled_witness :
  allFilled
    (run [ExecuteOrder (draws 1) (order "BTC" buy market 2 None None) (Fin 1000) 100;
          ExecuteOrder (draws 2) (order "BTC" sell limit 1 (Some 120) None) (Fin 1000) 100;
          CancelOrder 3 "order-2-2"]
         init).
Proof.
  apply reachable_orders_all_filled. apply reachable_run. constructor.
Defined.

Lemma step_keeps_orders_witness :
  exists o',
    JsMap.get "order-1-1"
      (orders (step (ExecuteOrder (draws 2) (order "ETH" sell market 1 None None)
                       (Fin 1000) 50)
                 (run [ExecuteOrder (draws 1) (order "BTC" buy market 2 None None)
                         (Fin 1000) 100] init)))
    = Some o'.
Proof.
  eapply (proj1 (step_keeps_orders_and_positions _ _)).
  vm_compute. reflexivity.
Defined.

Lemma executeOrder_touches_one_key_witness :
  let e := run [ExecuteOrder (draws 1) (order "BTC" buy market 2 None None)
                  (Fin 1000) 100] init in
  JsMap.get "BTC-1"
    (positions (fst (executeOrder (draws 2) (order "ETH" sell market 1 None None)
                       (Fin 1000) 50 e)))
  = JsMap.get "BTC-1" (positions e).
Proof.
  intros e.
  apply (executeOrder_touches_one_key (draws 2) (order "ETH" sell market 1 None None)
           (Fin 1000) 50 e "ETH" "BTC-1").
  - reflexivity.
  - intros H. vm_compute in H. discriminate H.
Defined.

Lemma closePosition_unknown_id_witness :
  closePosition (draws 1) "pos-9" 100 init = (init, failure "Position not found").
Proof.
  apply closePosition_unknown_id. intros p [].
Defined.

Lemma closePosition_flat_position_witness :
  OrderExecutionResult.success
    (snd (closePosition (draws 1) "pos-0" 100 (book "BTC-1" (holding "BTC" 0 100 1))))
  = false.
Proof.
  pose proof (closePosition_flat_position (draws 1) "pos-0" 100
                (book "BTC-1" (holding "BTC" 0 100 1)) (holding "BTC" 0 100 1)
                eq_refl eq_refl) as H.
  destruct (closePosition (draws 1) "pos-0" 100 (book "BTC-1" (holding "BTC" 0 100 1)))
    as [e' result].
  exact (proj1 H).
Defined.

Lemma cancelOrder_twice_witness :
  let '(e1, first) := cancelOrder 5 "order-7" (waiting "order-7") in
  first = true /\ cancelOrder 6 "order-7" e1 = (e1, false).
Proof.
  eapply (cancelOrder_twice 5 6 "order-7" (waiting "order-7")).
  - reflexivity.
  - reflexivity.
Defined.

Lemma exact_opposite_fill_flattens_witness :
  exists position',
    JsMap.get "BTC-1"
      (positions (updatePosition (draws 2) (fill "BTC" sell 10 120 (Some 1))
                    (book "BTC-1" (holding "BTC" 10 100 1))))
    = Some position'
    /\ Position.size position' == 0
    /\ Position.margin position' == 0
    /\ Position.realizedPnl position' == 200.
Proof.
  destruct (exact_opposite_fill_flattens (draws 2) (fill "BTC" sell 10 120 (Some 1))
              (book "BTC-1" (holding "BTC" 10 100 1)) (holding "BTC" 10 100 1))
    as (position' & Hget & Hsize & Hmargin & Hpnl & _).
  - reflexivity.
  - reflexivity.
  - right. split; reflexivity.
  - reflexivity.
  - exists position'. split; [exact Hget | ]. split; [exact Hsize | ].
    split; [exact Hmargin | ]. rewrite Hpnl. reflexivity.
Defined.

Lemma open_then_close_is_flat_witness :
  OrderExecutionResult.success
    (snd (closePosition (draws 2) "pos-1" 110
            (fst (executeOrder (draws 1) (order "BTC" buy market 2 None (Some 2))
                    (Fin 1000) 100 init))))
  = true.
Proof.
  exact (proj1 (open_then_close_is_flat (draws 1) (draws 2)
                  (order "BTC" buy market 2 None (Some 2)) (Fin 1000) 100 110 buy 2
                  eq_refl eq_refl eq_refl eq_refl)).
Defined.



Lemma checkRisk_invalid_parameters_witness :
  checkRisk (order "BTC" buy market 2 None None) 1000 []
  = {| RiskCheckResult.allowed := false;
       RiskCheckResult.reason := Some "Invalid order parameters";
       RiskCheckResult.suggestedMaxSize := None |}.
Proof.
  apply checkRisk_invalid_parameters. right. left. reflexivity.
Defined.

Lemma checkRisk_allowed_iff_witness :
  RiskCheckResult.allowed (checkRisk (order "BTC" buy limit 1 (Some 100) None) 1000 [])
  = true.
Proof.
  apply (proj1 (checkRisk_allowed_iff (order "BTC" buy limit 1 (Some 100) None) 1000 []
                  1 100 eq_refl eq_refl ltac:(discriminate) ltac:(discriminate))).
  split; discriminate.
Defined.

Lemma checkRisk_smaller_order_witness :
  RiskCheckResult.allowed
    (checkRisk (withQuantity (order "BTC" buy limit 2 (Some 100) None) 1) 1000 [])
  = true.
Proof.
  apply (checkRisk_smaller_order (order "BTC" buy limit 2 (Some 100) None) 1000 []
           2 1 100).
  - reflexivity.
  - reflexivity.
  - reflexivity.
  - reflexivity.
  - reflexivity.
  - discriminate.
  - reflexivity.
Defined.

Lemma checkRisk_fewer_positions_witness :
  RiskCheckResult.allowed (checkRisk (order "BTC" buy limit 1 (Some 100) None) 1000 [])
  = true.
Proof.
  apply (checkRisk_fewer_positions (order "BTC" buy limit 1 (Some 100) None) 1000
           [] [holding "ETH" 1 100 1]).
  reflexivity.
Defined.


Lemma riskValidateOrder_invalid_parameters_witness :
  RiskManager.validateOrder RiskManager.defaultLimits
    (order "BTC" buy market 2 None None) [] 1000
  = {| RiskManager.allowed := false;
       RiskManager.reasons := ["Invalid order parameters"] |}.
Proof.
  apply riskValidateOrder_invalid_parameters. right. left. reflexivity.
Defined.


Lemma riskValidateOrder_subsumed_witness :
  exists message,
    In message
      (RiskManager.reasons
         (RiskManager.validateOrder RiskManager.defaultLimits
            (order "BTC" buy limit 10 (Some 100) None) [] 500))
    /\ String.prefix "Would exceed margin limit (" message = true.
Proof.
  apply (riskValidateOrder_available_margin_subsumed RiskManager.defaultLimits
           (order "BTC" buy limit 10 (Some 100) None) [] 500).
  - reflexivity.
  - reflexivity.
  - vm_compute. right. left. reflexivity.
Defined.

Lemma riskScore_within_bounds_witness :
  0 <= RiskMetrics.riskScore
         (RiskManager.calculateRiskMetrics RiskManager.defaultLimits
            [holding "BTC" 10 100 2] [] 1000).
Proof.
  apply (proj2 (riskScore_within_bounds RiskManager.defaultLimits
                  [holding "BTC" 10 100 2] [] 1000)).
  - discriminate.
  - reflexivity.
Defined.

Lemma riskScore_loss_asymmetry_witness :
  RiskManager.calculateRiskScore RiskManager.defaultLimits (5 # 10) 2 (- (1 # 10))
  <= RiskManager.calculateRiskScore RiskManager.defaultLimits (5 # 10) 2 (- (3 # 10)).
Proof.
  apply (proj2 (riskScore_loss_asymmetry RiskManager.defaultLimits (5 # 10) 2)).
  discriminate.
Defined.

Lemma riskScore_position_count_witness :
  RiskManager.calculateRiskScore RiskManager.defaultLimits (5 # 10) 2 0
  <= RiskManager.calculateRiskScore RiskManager.defaultLimits (5 # 10) 4 0.
Proof.
  apply (proj1 (riskScore_position_count RiskManager.defaultLimits (5 # 10) 0)).
  - reflexivity.
  - discriminate.
Defined.

Lemma calculateRiskMetrics_no_positions_witness :
  RiskMetrics.riskScore
    (RiskManager.calculateRiskMetrics RiskManager.defaultLimits [] [] 1000) == 0
  /\ RiskMetrics.warnings
       (RiskManager.calculateRiskMetrics RiskManager.defaultLimits [] [] 1000) = [].
Proof.
  pose proof (calculateRiskMetrics_no_positions RiskManager.defaultLimits [] 1000
                ltac:(discriminate) ltac:(discriminate) ltac:(discriminate)
                ltac:(discriminate) ltac:(discriminate)) as H.
  split; [exact (proj1 (proj2 (proj2 (proj2 (proj2 (proj2 (proj2 H))))))) | ].
  exact (proj2 (proj2 (proj2 (proj2 (proj2 (proj2 (proj2 (proj2 (proj2 H))))))))).
Defined.

End MoreInstances.
